(** * Plugin lifecycle reconciliation of the control hub (config_server.py)

    A shallow embedding of the core of [nhl-setup/web/config_server.py]:
    the command runner ([run_shell_script], [run_plugin_script]), the
    status parser ([parse_plugin_list_output]), the installed-manifest
    self-heal ([check_and_create_installed_plugins_file]), the
    reconciliation endpoint ([get_plugin_status]) and the connectivity
    probe endpoint ([mqtt_test]).

    Conventions of the embedding.
    - A Python [str] is a Rocq [string]; each character stands for the code
      point of the same number, so the texts covered are those of code
      points below 256.
    - A Python [dict] keyed by plugin name is a [gmap string _]; plugin
      names are strings.
    - A JSON document is made of strings, arrays and objects.
    - A file is what [strip] and [json.loads] make of its text.
    - The logger is a list of records, oldest first.
    - Time is counted in seconds.
    - What the operating system, the network and the child processes do
      is an input of the model ([env], [world]). *)

From Stdlib Require Import ZArith Ascii String List Lia.
From stdpp Require Import base option list gmap sets strings pretty sorting.

Local Open Scope string_scope.
Local Open Scope list_scope.
Local Open Scope nat_scope.

(** ** Python string methods *)

Module PyStr.

(** [str.isspace] on one character, for code points below 256: the
    characters of bidirectional type WS, B or S, or of category Zs. It is
    also the character class [\s] of [re] on [str] patterns. *)
Definition isspace (c : ascii) : bool :=
  let n := nat_of_ascii c in
  (((9 <=? n) && (n <=? 13)) || ((28 <=? n) && (n <=? 32))
   || (n =? 133) || (n =? 160))%nat.

(** [s.lstrip()] *)
Fixpoint lstrip (s : string) : string :=
  match s with
  | String c r => if isspace c then lstrip r else s
  | EmptyString => EmptyString
  end.

(** [s.rstrip()] *)
Definition rstrip (s : string) : string :=
  String.rev (lstrip (String.rev s)).

(** [s.strip()] *)
Definition strip (s : string) : string := rstrip (lstrip s).

(** [s.split(sep)] for a separator of one character; [cur] is the piece
    being read, reversed. The result is never the empty list. *)
Fixpoint split_on_go (sep : ascii) (cur s : string) : list string :=
  match s with
  | EmptyString => [String.rev cur]
  | String c r =>
      if Ascii.eqb c sep
      then String.rev cur :: split_on_go sep EmptyString r
      else split_on_go sep (String c cur) r
  end.
Definition split_on (sep : ascii) (s : string) : list string :=
  split_on_go sep EmptyString s.

(** [s.split()]: the maximal runs of characters that are not whitespace. *)
Fixpoint split_go (cur s : string) : list string :=
  match s with
  | EmptyString =>
      match cur with
      | EmptyString => []
      | _ => [String.rev cur]
      end
  | String c r =>
      if isspace c
      then match cur with
           | EmptyString => split_go EmptyString r
           | _ => String.rev cur :: split_go EmptyString r
           end
      else split_go (String c cur) r
  end.
Definition split (s : string) : list string := split_go EmptyString s.

(** [s.lower()], character by character: A-Z and the capital letters of
    the Latin-1 block (all of 192..222 but the multiplication sign). *)
Definition lower_char (c : ascii) : ascii :=
  let n := nat_of_ascii c in
  if (((65 <=? n) && (n <=? 90))
      || ((192 <=? n) && (n <=? 222) && negb (n =? 215)))%nat
  then ascii_of_nat (n + 32)
  else c.
Fixpoint lower (s : string) : string :=
  match s with
  | EmptyString => EmptyString
  | String c r => String (lower_char c) (lower r)
  end.

(** [needle in hay] *)
Fixpoint contains (needle hay : string) : bool :=
  String.prefix needle hay
  || match hay with
     | EmptyString => false
     | String _ r => contains needle r
     end.

(** [sep.join(l)] *)
Definition join (sep : string) (l : list string) : string :=
  String.concat sep l.

(** Truth value of a [str]: [not s] holds of the empty string only. *)
Definition truthy (s : string) : bool :=
  match s with
  | EmptyString => false
  | _ => true
  end.

End PyStr.

Definition nl : string := String "010"%char EmptyString.

(** ** Logging *)

Inductive level := INFO | WARNING | ERROR.

Definition log_record : Type := level * string.

(** ** 4.3 Plugin status parser *)

Module StatusParser.

(** One value of the dict [parse_plugin_list_output] returns:
    [{"version": .., "status": .., "commit": ..}]. *)
Record LiveStatusEntry := mkLive {
  live_version : string;
  live_status : string;
  live_commit : string
}.

(** The pieces of the pattern [NAME\s+VERSION\s+STATUS\s+COMMIT]: each
    takes the text at the current position and gives what is left of it
    after its match. *)
Fixpoint lit (p s : string) : option string :=
  match p, s with
  | EmptyString, _ => Some s
  | String a p', String b s' => if Ascii.eqb a b then lit p' s' else None
  | String _ _, EmptyString => None
  end.

(** [\s+]. The literal that follows it in the pattern starts with a
    letter, so the only length of the run that can lead to a match is the
    longest one. *)
Definition ws_plus (s : string) : option string :=
  match s with
  | String c r => if PyStr.isspace c then Some (PyStr.lstrip r) else None
  | EmptyString => None
  end.

(** A pattern that is a sequence of such pieces. *)
Definition pieces (ps : list (string → option string)) (s : string)
  : option string :=
  foldl (λ (o : option string) p, match o with Some r => p r | None => None end)
        (Some s) ps.

Definition header_pattern : list (string → option string) :=
  [lit "NAME"; ws_plus; lit "VERSION"; ws_plus; lit "STATUS"; ws_plus;
   lit "COMMIT"].

(** [re.match] of the header pattern at the start of [s]. *)
Definition header_here (s : string) : bool :=
  match pieces header_pattern s with
  | Some _ => true
  | None => false
  end.

(** [re.search(r"NAME\s+VERSION\s+STATUS\s+COMMIT", header)]: a match at
    some position of the text. *)
Fixpoint header_search (s : string) : bool :=
  header_here s
  || match s with
     | EmptyString => false
     | String _ r => header_search r
     end.

Definition bad_line_warning (parts : list string) (line : string)
  : log_record :=
  (WARNING,
   "Could not parse plugin list line (expected 4 columns, got "
     +:+ pretty (length parts) +:+ "): '" +:+ line +:+ "'").

(** The body of the loop over the data lines, on the dict filled so far
    and the records logged so far. Nothing in the [try] block of the loop
    can raise, so its handler is left out. *)
Definition parse_line (acc : gmap string LiveStatusEntry * list log_record)
    (line : string) : gmap string LiveStatusEntry * list log_record :=
  let '(plugin_statuses, logged) := acc in
  if negb (PyStr.truthy (PyStr.strip line)) then acc
  else
    let parts := PyStr.split line in
    match parts with
    | name :: version :: status :: commit :: _ =>
        (<[name := mkLive version status commit]> plugin_statuses, logged)
    | _ => (plugin_statuses, logged ++ [bad_line_warning parts line])
    end.

(** [lines = output.strip().split('\n')] *)
Definition lines_of (output : string) : list string :=
  PyStr.split_on "010"%char (PyStr.strip output).

(** The loop [for line in lines[2:]], started on an empty dict. *)
Definition parse_rows (rows : list string)
  : gmap string LiveStatusEntry * list log_record :=
  foldl parse_line (∅, []) rows.

(** [parse_plugin_list_output(output)], with what it logs. *)
Definition parse_plugin_list_output (output : string)
  : gmap string LiveStatusEntry * list log_record :=
  let lines := lines_of output in
  if (length lines <=? 2)%nat then
    (∅, [(WARNING,
          "Could not parse 'plugins.py list' output: no data lines found.")])
  else
    let header := hd EmptyString lines in
    if negb (header_search header) then
      (∅, [(ERROR,
            "Could not parse 'plugins.py list' header. Got: " +:+ header)])
    else
      parse_rows (drop 2 lines).

End StatusParser.

(** ** Exceptions, JSON values, files *)

(** The exceptions the modelled code can meet, each with the text [str(e)]
    gives. [TimeoutExpired] is [subprocess.TimeoutExpired]. *)
Inductive exn :=
| FileNotFoundError (text : string)
| JSONDecodeError (text : string)
| TypeError (text : string)
| AttributeError (text : string)
| OSError (text : string)
| TimeoutExpired (text : string).

Definition str_exn (e : exn) : string :=
  match e with
  | FileNotFoundError t | JSONDecodeError t | TypeError t
  | AttributeError t | OSError t | TimeoutExpired t => t
  end.

(** What [json.load] returns, for documents made of strings, arrays and
    objects; an object is the list of its members, and a key bound twice
    has the value of its first binding in the list. Numbers, booleans and
    null are outside the model. *)
#[warnings="-register-all"]
Inductive json :=
| JStr (s : string)
| JArr (items : list json)
| JObj (members : list (string * json)).

(** [d.get(key)] on the members of an object. *)
Fixpoint dict_get (key : string) (members : list (string * json))
  : option json :=
  match members with
  | [] => None
  | (k, v) :: rest => if String.eqb k key then Some v else dict_get key rest
  end.

(** Truth value of a JSON value: empty strings, lists and dicts are false. *)
Definition json_truthy (v : json) : bool :=
  match v with
  | JStr s => PyStr.truthy s
  | JArr [] => false
  | JObj [] => false
  | _ => true
  end.

(** [key in l] for a Python list [l] of JSON values and a [str] key. *)
Definition list_has_str (key : string) (l : list json) : bool :=
  existsb (λ v, match v with JStr s => String.eqb s key | _ => false end) l.

(** The text of a file, as far as the code looks at it: its stripped text
    is empty ([Blank]); [json.loads] rejects it with a message ([Garbage]);
    [json.loads] returns a document ([Doc]). *)
Inductive content :=
| Blank
| Garbage (text : string)
| Doc (data : json).

(** [json.loads] of the text of a file. *)
Definition json_loads (c : content) : exn + json :=
  match c with
  | Blank => inl (JSONDecodeError "Expecting value: line 1 column 1 (char 0)")
  | Garbage text => inl (JSONDecodeError text)
  | Doc data => inr data
  end.

(** ** The server's surroundings *)

(** A child process: the seconds it takes to exit by itself ([None]: it
    never does), its exit code and what it writes to its two streams. *)
Record process := mkProcess {
  exits_after : option nat;
  returncode : Z;
  stdout : string;
  stderr : string
}.

(** What [subprocess.Popen] does with a command vector: it raises an
    [OSError] (no such executable, permission denied) of the given text, or
    a child is started. *)
Inductive launch :=
| LaunchError (text : string)
| Launched (p : process).

(** What [urllib.request.urlopen] does with the index URL: it raises, or it
    answers with a status and a body. *)
Inductive url_response :=
| UrlError (e : exn)
| UrlAnswer (status : nat) (body : content).

(** The configuration, fixed at startup, and the behaviour of what the
    server calls. *)
Record env := mkEnv {
  SCOREBOARD_DIR : string;
  SCRIPT_DIR : string;
  PYTHON_EXEC : string;
  spawn : list string → launch;
  urlopen : url_response
}.

(** The state the server acts on: the files, the children it started and
    has not waited for (by process id), the clock in seconds and the log. *)
Record world := mkWorld {
  fs : gmap string content;
  children : gmap nat process;
  next_pid : nat;
  clock : nat;
  logs : list log_record
}.

Definition set_fs (f : gmap string content → gmap string content) (w : world)
  : world :=
  mkWorld (f (fs w)) (children w) (next_pid w) (clock w) (logs w).
Definition set_children (f : gmap nat process → gmap nat process) (w : world)
  : world :=
  mkWorld (fs w) (f (children w)) (next_pid w) (clock w) (logs w).
Definition add_log (r : log_record) (w : world) : world :=
  mkWorld (fs w) (children w) (next_pid w) (clock w) (logs w ++ [r]).
Definition sleep (seconds : nat) (w : world) : world :=
  mkWorld (fs w) (children w) (next_pid w) (clock w + seconds) (logs w).

(** Computations on the world. *)
Definition io (A : Type) : Type := world → A * world.

#[global] Instance io_ret : MRet io := λ A (x : A) w, (x, w).
#[global] Instance io_bind : MBind io :=
  λ A B (f : A → io B) (m : io A) w, let '(x, w') := m w in f x w'.

Definition get_world : io world := λ w, (w, w).
Definition modify (f : world → world) : io unit := λ w, (tt, f w).
Definition logger (l : level) (msg : string) : io unit :=
  modify (add_log (l, msg)).
Definition exec {A} (m : io A) (w : world) : world := (m w).2.
Definition eval {A} (m : io A) (w : world) : A := (m w).1.

(** [os.path.join(dir, name)] for a relative [name]. *)
Definition ends_with_slash (dir : string) : bool :=
  match String.rev dir with
  | String c _ => Ascii.eqb c "/"%char
  | EmptyString => false
  end.
Definition path_join (dir name : string) : string :=
  if negb (PyStr.truthy dir) || ends_with_slash dir then dir +:+ name
  else dir +:+ "/" +:+ name.

Definition PLUGINS_INDEX_FILE (E : env) : string :=
  path_join (SCOREBOARD_DIR E) "plugins_index.json".
Definition PLUGINS_INSTALLED_FILE (E : env) : string :=
  path_join (SCOREBOARD_DIR E) "plugins.json".
Definition PLUGINS_EXAMPLE_FILE (E : env) : string :=
  path_join (SCOREBOARD_DIR E) "plugins.json.example".
Definition PLUGINS_SCRIPT (E : env) : string :=
  path_join (SCOREBOARD_DIR E) "plugins.py".

(** [os.path.exists(path)] *)
Definition path_exists (path : string) : io bool :=
  w ← get_world; mret (bool_decide (is_Some (fs w !! path))).

(** ** 4.1 Command runner *)

Module Runner.

Record CommandResult := mkResult { success : bool; output : string }.

(** [subprocess.Popen(command_list, ..., cwd=SCOREBOARD_DIR)]: the new
    child gets the next process id. *)
Definition Popen (E : env) (command_list : list string) : io (exn + nat) :=
  λ w,
    match spawn E command_list with
    | LaunchError text => (inl (OSError text), w)
    | Launched p =>
        let pid := next_pid w in
        (inr pid,
         mkWorld (fs w) (<[pid := p]> (children w)) (S pid) (clock w)
                 (logs w))
    end.

(** [process.communicate(timeout=timeout)]. A child that exits in time is
    waited for and its streams are returned with its exit code. Otherwise
    [TimeoutExpired] is raised once the timeout has passed, and, as the
    documentation of [Popen.communicate] has it, the child is not killed:
    it stays among the children. *)
Definition communicate (pid : nat) (timeout : nat)
  : io (exn + (string * string * Z)) :=
  λ w,
    match children w !! pid with
    | None => (inl (OSError "no such child"), w)
    | Some p =>
        match exits_after p with
        | Some d =>
            if d <=? timeout
            then (inr (stdout p, stderr p, returncode p),
                  sleep d (set_children (delete pid) w))
            else (inl (TimeoutExpired "timed out"), sleep timeout w)
        | None => (inl (TimeoutExpired "timed out"), sleep timeout w)
        end
    end.

(** The [try] block of [run_shell_script]. The only calls it makes on the
    child are [Popen] and [communicate]. *)
Definition run_shell_script_body (E : env) (command_list : list string)
    (timeout : nat) : io (exn + CommandResult) :=
  launched ← Popen E command_list;
  match launched with
  | inl e => mret (inl e)
  | inr pid =>
      communicated ← communicate pid timeout;
      match communicated with
      | inl e => mret (inl e)
      | inr (stdout, stderr, returncode) =>
          let full_output := stdout +:+ nl +:+ stderr in
          if (returncode =? 0)%Z then
            logger INFO ("Shell command " +:+ PyStr.join " " command_list
                           +:+ " ran successfully.");;
            mret (inr (mkResult true full_output))
          else
            logger WARNING ("Shell command " +:+ PyStr.join " " command_list
                              +:+ " failed.");;
            mret (inr (mkResult false full_output))
      end
  end.

(** [run_shell_script(command_list, timeout)] *)
Definition run_shell_script (E : env) (command_list : list string)
    (timeout : nat) : io CommandResult :=
  logger INFO ("Running shell command: " +:+ PyStr.join " " command_list
                 +:+ " in [bold]" +:+ SCOREBOARD_DIR E +:+ "[/bold]");;
  r ← run_shell_script_body E command_list timeout;
  match r with
  | inr result => mret result
  | inl (TimeoutExpired _) =>
      logger ERROR "Shell command timed out.";;
      mret (mkResult false ("Error: Script timed out after "
                              +:+ pretty timeout +:+ " seconds."))
  | inl e =>
      logger ERROR ("An unexpected error occurred while running shell command: "
                      +:+ str_exn e);;
      mret (mkResult false ("An unexpected error occurred: " +:+ str_exn e))
  end.

(** [run_plugin_script(args_list, timeout)] *)
Definition run_plugin_script (E : env) (args_list : list string)
    (timeout : nat) : io CommandResult :=
  present ← path_exists (PLUGINS_SCRIPT E);
  if negb present then
    logger ERROR ("Plugin script not found at " +:+ PLUGINS_SCRIPT E);;
    mret (mkResult false ("Error: Script not found at " +:+ PLUGINS_SCRIPT E))
  else
    let command := [PYTHON_EXEC E; PLUGINS_SCRIPT E] ++ args_list in
    run_shell_script E command timeout.

End Runner.

(** ** 4.2 Plugin manifest readers *)

Module Manifest.

(** A plugin entry of a manifest: the members of its JSON object. *)
Abbreviation entry := (list (string * json)).

(** [not v], for [v] the result of [d.get(key)]. *)
Definition py_not (v : option json) : bool :=
  match v with
  | None => true
  | Some v => negb (json_truthy v)
  end.

(** The [try] block of [check_and_create_installed_plugins_file], on the
    text of the installed manifest: the records it logs and the value it
    leaves in [should_restore], or the exception it raises. *)
Definition validate_installed (E : env) (text : content)
  : exn + (bool * list log_record) :=
  match text with
  | Blank =>
      inr (true, [(WARNING, PLUGINS_INSTALLED_FILE E +:+ " is empty.")])
  | _ =>
      match json_loads text with
      | inl e => inl e
      | inr (JObj data) =>
          if py_not (dict_get "plugins" data) then
            inr (true,
                 [(INFO, PLUGINS_INSTALLED_FILE E
                           +:+ " exists but has no plugins. Restoring defaults.")])
          else inr (false, [])
      | inr (JArr _) =>
          inl (AttributeError "'list' object has no attribute 'get'")
      | inr (JStr _) =>
          inl (AttributeError "'str' object has no attribute 'get'")
      end
  end.

(** [shutil.copy(src, dst)]: the destination gets the text of the source. *)
Definition shutil_copy (src dst : string) : io (exn + unit) :=
  λ w,
    match fs w !! src with
    | None => (inl (FileNotFoundError ("No such file or directory: " +:+ src)), w)
    | Some text => (inr tt, set_fs (insert dst text) w)
    end.

(** [check_and_create_installed_plugins_file()] *)
Definition check_and_create_installed_plugins_file (E : env) : io unit :=
  w ← get_world;
  should_restore ←
    match fs w !! PLUGINS_INSTALLED_FILE E with
    | None =>
        logger WARNING (PLUGINS_INSTALLED_FILE E +:+ " not found.");;
        mret true
    | Some text =>
        match validate_installed E text with
        | inr (should_restore, logged) =>
            modify (λ w, foldl (λ w r, add_log r w) w logged);;
            mret should_restore
        | inl e =>
            logger WARNING ("Error validating " +:+ PLUGINS_INSTALLED_FILE E
                              +:+ ": " +:+ str_exn e
                              +:+ ". Will attempt restore.");;
            mret true
        end
    end;
  if (should_restore : bool) then
    present ← path_exists (PLUGINS_EXAMPLE_FILE E);
    if (present : bool) then
      logger INFO ("Copying " +:+ PLUGINS_EXAMPLE_FILE E +:+ " to "
                     +:+ PLUGINS_INSTALLED_FILE E +:+ "...");;
      copied ← shutil_copy (PLUGINS_EXAMPLE_FILE E) (PLUGINS_INSTALLED_FILE E);
      match copied with
      | inr _ => logger INFO "Plugins file restored."
      | inl e =>
          logger ERROR ("Failed to copy example plugins file: " +:+ str_exn e)
      end
    else
      logger WARNING (PLUGINS_EXAMPLE_FILE E
                        +:+ " not found. Cannot create plugins.json.")
  else mret tt.

Definition PLUGINS_INDEX_URL : string :=
  "https://raw.githubusercontent.com/falkyre/nhl-led-scoreboard/main/plugins_index.json".

(** [download_plugins_index(force)]; the pair is the dict it returns,
    [success] and [message]. *)
Definition download_plugins_index (E : env) (force : bool)
  : io (bool * string) :=
  present ← path_exists (PLUGINS_INDEX_FILE E);
  if negb force && present then
    logger INFO (PLUGINS_INDEX_FILE E +:+ " already exists. Skipping download.");;
    mret (true, "Plugin index already exists.")
  else
    logger INFO ("Downloading plugin index from " +:+ PLUGINS_INDEX_URL +:+ "...");;
    match urlopen E with
    | UrlAnswer status body =>
        if status =? 200 then
          modify (set_fs (insert (PLUGINS_INDEX_FILE E) body));;
          logger INFO ("Successfully downloaded and saved " +:+ PLUGINS_INDEX_FILE E);;
          mret (true, "Plugin index downloaded successfully.")
        else
          logger ERROR ("Failed to download plugin index. Status code: "
                          +:+ pretty status);;
          mret (false, "Failed to download. Status: " +:+ pretty status)
    | UrlError e =>
        logger ERROR ("Error downloading plugin index: " +:+ str_exn e);;
        mret (false, "An error occurred: " +:+ str_exn e)
    end.

(** One turn of the loop [for plugin in data['plugins']] of the two
    readers of [get_plugin_status]:
    [if 'name' in plugin: plugins[plugin['name']] = plugin]. *)
Definition add_plugin (plugins : gmap string entry) (plugin : json)
  : exn + gmap string entry :=
  match plugin with
  | JObj members =>
      match dict_get "name" members with
      | None => inr plugins
      | Some (JStr name) => inr (<[name := members]> plugins)
      | Some (JArr _) => inl (TypeError "unhashable type: 'list'")
      | Some (JObj _) => inl (TypeError "unhashable type: 'dict'")
      end
  | JStr s =>
      if PyStr.contains "name" s
      then inl (TypeError "string indices must be integers")
      else inr plugins
  | JArr items =>
      if list_has_str "name" items
      then inl (TypeError "list indices must be integers or slices, not str")
      else inr plugins
  end.

(** The loop: the dict as filled when the loop ends or raises, and the
    exception if it raises. *)
Fixpoint add_plugins (plugins : gmap string entry) (items : list json)
  : gmap string entry * option exn :=
  match items with
  | [] => (plugins, None)
  | plugin :: rest =>
      match add_plugin plugins plugin with
      | inl e => (plugins, Some e)
      | inr plugins' => add_plugins plugins' rest
      end
  end.

(** The [try] block of the two readers of [get_plugin_status] (the
    catalog and the installed manifest are read by the same statements),
    started on an empty dict: [open], [json.load], the test
    ['plugins' in data and isinstance(data['plugins'], list)] and the
    loop. *)
Definition read_plugins (files : gmap string content) (path : string)
  : gmap string entry * option exn :=
  match files !! path with
  | None =>
      (∅, Some (FileNotFoundError ("No such file or directory: " +:+ path)))
  | Some text =>
      match json_loads text with
      | inl e => (∅, Some e)
      | inr (JObj data) =>
          match dict_get "plugins" data with
          | Some (JArr items) => add_plugins ∅ items
          | _ => (∅, None)
          end
      | inr (JArr items) =>
          if list_has_str "plugins" items
          then (∅, Some (TypeError "list indices must be integers or slices, not str"))
          else (∅, None)
      | inr (JStr s) =>
          if PyStr.contains "plugins" s
          then (∅, Some (TypeError "string indices must be integers"))
          else (∅, None)
      end
  end.

End Manifest.

Import StatusParser Runner Manifest.

(** ** 4.4 Plugin reconciler *)

Module Reconciler.

(** One value of [merged_plugins], and one element of the list the
    endpoint returns. *)
Record PluginRecord := mkPlugin {
  name : string;
  url : json;
  version : string;
  status : string;
  commit : string
}.

Definition set_live (status_data : LiveStatusEntry) (p : PluginRecord)
  : PluginRecord :=
  mkPlugin (name p) (url p) (live_version status_data)
           (live_status status_data) (live_commit status_data).
Definition set_status (s : string) (p : PluginRecord) : PluginRecord :=
  mkPlugin (name p) (url p) (version p) s (commit p).

(** [d.get('url', '-')] *)
Definition get_url (d : entry) : json :=
  default (JStr "-") (dict_get "url" d).

(** The record a catalog entry starts with. *)
Definition available_record (name : string) (plugin_data : entry)
  : PluginRecord :=
  mkPlugin name (get_url plugin_data) "-" "available" "-".

(** The record a name that is not in the catalog starts with;
    [installed_plugins.get(name, {})] is the empty dict of a name that is
    not installed. *)
Definition unknown_record (installed_plugins : gmap string entry)
    (name : string) : PluginRecord :=
  mkPlugin name (get_url (default [] (installed_plugins !! name)))
           "-" "unknown" "-".

(** The first loop: [for name, plugin_data in available_plugins.items()]. *)
Definition seed_available (available_plugins : gmap string entry)
  : gmap string PluginRecord :=
  map_fold (λ name plugin_data merged_plugins,
              <[name := available_record name plugin_data]> merged_plugins)
           ∅ available_plugins.

(** The set [all_plugin_names]. *)
Definition all_plugin_names (available_plugins installed_plugins : gmap string entry)
    (plugin_statuses : gmap string LiveStatusEntry) : gset string :=
  dom available_plugins ∪ dom installed_plugins ∪ dom plugin_statuses.

(** The body of the loop [for name in all_plugin_names]. A value of
    [plugin_statuses] is a dict of three keys, so [if status_data:] tests
    that the name is a key of [plugin_statuses], and the defaults of
    [status_data.get] are never used. *)
Definition merge_step (installed_plugins : gmap string entry)
    (plugin_statuses : gmap string LiveStatusEntry)
    (merged_plugins : gmap string PluginRecord) (name : string)
  : gmap string PluginRecord :=
  let merged_plugins :=
    match merged_plugins !! name with
    | Some _ => merged_plugins
    | None => <[name := unknown_record installed_plugins name]> merged_plugins
    end in
  match plugin_statuses !! name with
  | Some status_data => alter (set_live status_data) name merged_plugins
  | None =>
      match installed_plugins !! name with
      | Some _ => alter (set_status "error") name merged_plugins
      | None => merged_plugins
      end
  end.

(** The second loop, on the names in the order [names]. *)
Definition merge_loop (installed_plugins : gmap string entry)
    (plugin_statuses : gmap string LiveStatusEntry)
    (names : list string) (merged_plugins : gmap string PluginRecord)
  : gmap string PluginRecord :=
  foldl (merge_step installed_plugins plugin_statuses) merged_plugins names.

(** Step 5 of [get_plugin_status]: the dict [merged_plugins] when the two
    loops are over. *)
Definition merge_plugins (available_plugins installed_plugins : gmap string entry)
    (plugin_statuses : gmap string LiveStatusEntry)
  : gmap string PluginRecord :=
  merge_loop installed_plugins plugin_statuses
    (elements (all_plugin_names available_plugins installed_plugins
                                plugin_statuses))
    (seed_available available_plugins).

(** The order of [sorted(..., key=lambda p: p['name'])]: strings compare
    character by character, by code point. *)
Definition by_name (p q : PluginRecord) : Prop := String.le (name p) (name q).

#[global] Instance by_name_dec : RelDecision by_name.
Proof. intros p q. unfold by_name. apply _. Defined.

(** [sorted(list(merged_plugins.values()), key=lambda p: p['name'])] *)
Definition final_plugin_list (merged_plugins : gmap string PluginRecord)
  : list PluginRecord :=
  merge_sort by_name (map snd (map_to_list merged_plugins)).

(** What [jsonify(...)] is given, with the status code. *)
Record response := mkResponse {
  code : nat;
  resp_success : bool;
  resp_plugins : list PluginRecord;
  resp_message : option string
}.

(** Steps 1 and 2 of [get_plugin_status]: the dict [available_plugins]. *)
Definition load_available (E : env) : io (gmap string entry) :=
  download_plugins_index E false;;
  w ← get_world;
  let '(available_plugins, raised) := read_plugins (fs w) (PLUGINS_INDEX_FILE E) in
  match raised with
  | Some e =>
      logger ERROR ("Error reading " +:+ PLUGINS_INDEX_FILE E +:+ ": " +:+ str_exn e)
  | None => mret tt
  end;;
  mret available_plugins.

(** Step 3, up to the handler of its [try]: the dict [installed_plugins],
    or the exception the handler is entered with. *)
Definition load_installed (E : env) : io (exn + gmap string entry) :=
  check_and_create_installed_plugins_file E;;
  w ← get_world;
  let '(installed_plugins, raised) :=
    read_plugins (fs w) (PLUGINS_INSTALLED_FILE E) in
  match raised with
  | Some e => mret (inl e)
  | None => mret (inr installed_plugins)
  end.

(** Step 4: the dict [plugin_statuses]. *)
Definition load_live_status (E : env) : io (gmap string LiveStatusEntry) :=
  list_result ← run_plugin_script E ["list"] 30;
  plugin_statuses ←
    (if negb (success list_result) then
       logger ERROR "Failed to run 'plugins.py list'";;
       mret ∅
     else
       let '(plugin_statuses, logged) :=
         parse_plugin_list_output (output list_result) in
       modify (λ w, foldl (λ w r, add_log r w) w logged);;
       mret plugin_statuses);
  logger INFO ("Parsed " +:+ pretty (size (plugin_statuses : gmap string LiveStatusEntry))
                 +:+ " plugin statuses from 'list' command.");;
  mret plugin_statuses.

(** [get_plugin_status()] *)
Definition get_plugin_status (E : env) : io response :=
  logger INFO "Request received for plugin status...";;
  available_plugins ← load_available E;
  installed ← load_installed E;
  match installed with
  | inl e =>
      logger ERROR ("Error reading " +:+ PLUGINS_INSTALLED_FILE E +:+ ": "
                      +:+ str_exn e);;
      mret (mkResponse 500 false [] (Some (str_exn e)))
  | inr installed_plugins =>
      plugin_statuses ← load_live_status E;
      let merged_plugins :=
        merge_plugins available_plugins installed_plugins plugin_statuses in
      let final_plugin_list := final_plugin_list merged_plugins in
      logger INFO ("Returning " +:+ pretty (length final_plugin_list) +:+ " plugins.");;
      mret (mkResponse 200 true final_plugin_list None)
  end.

End Reconciler.

(** ** 4.6 Connectivity probe *)

Module Probe.

(** A value of the request for [port]: a JSON number or a JSON string. *)
Inductive port_value :=
| PortNumber (n : nat)
| PortText (s : string).

(** The members of [request.json] the endpoint reads; [None] is a member
    that is missing. *)
Record probe_request := mkProbe {
  broker : option string;
  port : option port_value;
  username : option string;
  password : option string
}.

Definition str_truthy (v : option string) : bool :=
  match v with
  | Some s => PyStr.truthy s
  | None => false
  end.
Definition port_truthy (v : option port_value) : bool :=
  match v with
  | Some (PortNumber n) => negb (n =? 0)
  | Some (PortText s) => PyStr.truthy s
  | None => false
  end.

(** [str(port)] *)
Definition str_port (v : port_value) : string :=
  match v with
  | PortNumber n => pretty n
  | PortText s => s
  end.

Definition dquote : string := String (ascii_of_nat 34) EmptyString.

(** The last statement of [mqtt_test]: what the endpoint makes of the
    result of the command runner. *)
Definition verdict (result : CommandResult) : CommandResult :=
  if success result && PyStr.contains "yes" (PyStr.lower (output result))
  then mkResult true (output result)
  else mkResult false (output result).

(** [os.path.join(SCRIPT_DIR, 'mqtt_test.py')] *)
Definition probe_script (E : env) : string :=
  path_join (SCRIPT_DIR E) "mqtt_test.py".

(** The list [command] of [mqtt_test], for a request that has a broker and
    a port. *)
Definition probe_command (E : env) (data : probe_request) : list string :=
  let command :=
    [PYTHON_EXEC E; probe_script E; default EmptyString (broker data);
     from_option str_port EmptyString (port data)] in
  if str_truthy (username data) && str_truthy (password data)
  then command ++ ["-u"; default EmptyString (username data);
                   "-p"; default EmptyString (password data)]
  else command.

(** [mqtt_test()], on the request data: the dict given to [jsonify] and
    the status code. *)
Definition mqtt_test (E : env) (data : probe_request)
  : io (CommandResult * nat) :=
  if negb (str_truthy (broker data)) || negb (port_truthy (port data)) then
    mret (mkResult false ("Error: " +:+ dquote +:+ "broker" +:+ dquote
                            +:+ " and " +:+ dquote +:+ "port" +:+ dquote
                            +:+ " are required."), 400)
  else
    let script_path := probe_script E in
    present ← path_exists script_path;
    if negb present then
      logger ERROR ("Script not found at " +:+ script_path);;
      mret (mkResult false ("Error: Script not found at " +:+ script_path), 404)
    else
      result ← run_shell_script E (probe_command E data) 30;
      mret (verdict result, 200).

End Probe.

Import Reconciler Probe.

(** ** The board names of the installed manifest *)

Module Boards.

(** One turn of the loop of [get_plugin_boards]:
    [if 'name' in plugin: board_names.append(plugin['name'])]. The name is
    appended whatever value it is. *)
Definition board_name (board_names : list json) (plugin : json)
  : exn + list json :=
  match plugin with
  | JObj members =>
      match dict_get "name" members with
      | Some v => inr (board_names ++ [v])
      | None => inr board_names
      end
  | JStr s =>
      if PyStr.contains "name" s
      then inl (TypeError "string indices must be integers")
      else inr board_names
  | JArr items =>
      if list_has_str "name" items
      then inl (TypeError "list indices must be integers or slices, not str")
      else inr board_names
  end.

(** The loop: the list as it is when the loop ends or raises, and the
    exception if it raises. *)
Fixpoint collect_board_names (board_names : list json) (items : list json)
  : list json * option exn :=
  match items with
  | [] => (board_names, None)
  | plugin :: rest =>
      match board_name board_names plugin with
      | inl e => (board_names, Some e)
      | inr board_names' => collect_board_names board_names' rest
      end
  end.

(** The [try] block of [get_plugin_boards]: the list [board_names] when
    the block is left, with the exception that left it or, if none did,
    whether the branch of the plugin list was taken. *)
Definition read_boards (files : gmap string content) (path : string)
  : list json * (exn + bool) :=
  match files !! path with
  | None =>
      ([], inl (FileNotFoundError ("No such file or directory: " +:+ path)))
  | Some text =>
      match json_loads text with
      | inl e => ([], inl e)
      | inr (JObj data) =>
          match dict_get "plugins" data with
          | Some (JArr items) =>
              match collect_board_names [] items with
              | (board_names, Some e) => (board_names, inl e)
              | (board_names, None) => (board_names, inr true)
              end
          | _ => ([], inr false)
          end
      | inr (JArr items) =>
          if list_has_str "plugins" items
          then ([], inl (TypeError "list indices must be integers or slices, not str"))
          else ([], inr false)
      | inr (JStr s) =>
          if PyStr.contains "plugins" s
          then ([], inl (TypeError "string indices must be integers"))
          else ([], inr false)
      end
  end.

(** [get_plugin_boards()]. [repr] is Python's rendering of a list in an
    f-string; it is used in one log record. *)
Definition get_plugin_boards (repr : list json → string) (E : env)
  : io (list json) :=
  check_and_create_installed_plugins_file E;;
  w ← get_world;
  let '(board_names, outcome) := read_boards (fs w) (PLUGINS_INSTALLED_FILE E) in
  match outcome with
  | inr true =>
      logger INFO ("Loaded " +:+ pretty (length board_names)
                     +:+ " plugin boards: " +:+ repr board_names)
  | inr false =>
      logger WARNING (PLUGINS_INSTALLED_FILE E
                        +:+ " is missing 'plugins' key or it's not a list.")
  | inl (FileNotFoundError _) =>
      logger INFO (PLUGINS_INSTALLED_FILE E
                     +:+ " not found, no custom boards loaded.")
  | inl (JSONDecodeError _) =>
      logger ERROR ("Could not decode " +:+ PLUGINS_INSTALLED_FILE E
                      +:+ ". Check for JSON syntax errors.")
  | inl e =>
      logger ERROR ("Error reading " +:+ PLUGINS_INSTALLED_FILE E +:+ ": "
                      +:+ str_exn e)
  end;;
  mret board_names.

End Boards.

(** ** The configuration file *)

Module Config.

Definition CONFIG_DIR (E : env) : string :=
  path_join (SCOREBOARD_DIR E) "config".
Definition CONFIG_FILE : string := "config.json".
Definition CONFIG_PATH (E : env) : string :=
  path_join (CONFIG_DIR E) CONFIG_FILE.

(** [f"{CONFIG_PATH}.{timestamp}.bak"] *)
Definition backup_path (E : env) (timestamp : string) : string :=
  CONFIG_PATH E +:+ "." +:+ timestamp +:+ ".bak".

(** What [load_config] and [save_config] give to [jsonify], with the
    status code. *)
Record config_response := mkConfigResponse {
  cfg_code : nat;
  cfg_success : bool;
  cfg_message : option string;
  cfg_config : option json
}.

(** [load_config()] *)
Definition load_config (E : env) : io config_response :=
  present ← path_exists (CONFIG_PATH E);
  if negb present then
    logger WARNING ("Load request failed: " +:+ CONFIG_FILE +:+ " not found.");;
    mret (mkConfigResponse 404 false (Some "config.json not found.") None)
  else
    logger INFO ("Loading config from: " +:+ CONFIG_PATH E);;
    w ← get_world;
    let loaded :=
      match fs w !! CONFIG_PATH E with
      | None =>
          inl (FileNotFoundError ("No such file or directory: "
                                    +:+ CONFIG_PATH E))
      | Some text => json_loads text
      end in
    match loaded with
    | inr data => mret (mkConfigResponse 200 true None (Some data))
    | inl e =>
        logger ERROR ("Error loading config: " +:+ str_exn e);;
        mret (mkConfigResponse 500 false
                (Some ("An error occurred: " +:+ str_exn e)) None)
    end.

(** [os.rename(src, dst)]: the file moves, over what was at [dst]. *)
Definition os_rename (src dst : string) : io (exn + unit) :=
  λ w,
    match fs w !! src with
    | None =>
        (inl (FileNotFoundError ("No such file or directory: " +:+ src)), w)
    | Some text => (inr tt, set_fs (λ files, <[dst := text]> (delete src files)) w)
    end.

(** The [try] block of [save_config]. [config_dir_exists] is what
    [os.path.exists(CONFIG_DIR)] answers (directories are not in the file
    map), [timestamp] is the formatted [datetime.now()] and [data_string]
    the body of the request. [open(CONFIG_PATH, 'w')] empties the file
    before [json.loads] looks at the body. *)
Definition save_config_body (E : env) (config_dir_exists : bool)
    (timestamp : string) (data_string : content)
  : io (exn + config_response) :=
  (if negb config_dir_exists
   then logger INFO ("Creating directory: " +:+ CONFIG_DIR E)
   else mret tt);;
  present ← path_exists (CONFIG_PATH E);
  renamed ←
    (if (present : bool) then
       logger INFO ("Backing up existing config to: "
                      +:+ backup_path E timestamp);;
       os_rename (CONFIG_PATH E) (backup_path E timestamp)
     else mret (inr tt));
  match renamed with
  | inl e => mret (inl e)
  | inr _ =>
      logger INFO ("Saving new config to: " +:+ CONFIG_PATH E);;
      modify (set_fs (insert (CONFIG_PATH E) Blank));;
      match json_loads data_string with
      | inl e => mret (inl e)
      | inr valid_json =>
          modify (set_fs (insert (CONFIG_PATH E) (Doc valid_json)));;
          mret (inr (mkConfigResponse 200 true
                       (Some ("Config saved to " +:+ CONFIG_PATH E
                                +:+ ". Backup of old file created."))
                       None))
      end
  end.

(** [save_config()] *)
Definition save_config (E : env) (config_dir_exists : bool)
    (timestamp : string) (data_string : content) : io config_response :=
  r ← save_config_body E config_dir_exists timestamp data_string;
  match r with
  | inr response => mret response
  | inl e =>
      logger ERROR ("Error saving config: " +:+ str_exn e);;
      mret (mkConfigResponse 500 false
              (Some ("An error occurred: " +:+ str_exn e)) None)
  end.

End Config.

(** ** The other endpoints *)

Module Endpoints.

Definition required (member : string) : string :=
  "Error: " +:+ dquote +:+ member +:+ dquote +:+ " is required.".

(** [add_plugin()], on the member [url] of the request. *)
Definition add_plugin (E : env) (url : option string)
  : io (CommandResult * nat) :=
  if negb (str_truthy url) then mret (mkResult false (required "url"), 400)
  else
    result ← run_plugin_script E ["add"; default EmptyString url] 300;
    mret (result, 200).

(** [remove_plugin()], on the member [name] of the request and the truth
    value of its member [keep_config]. *)
Definition remove_plugin (E : env) (name : option string) (keep_config : bool)
  : io (CommandResult * nat) :=
  if negb (str_truthy name) then mret (mkResult false (required "name"), 400)
  else
    let command_args := ["rm"; default EmptyString name] in
    let command_args :=
      if keep_config then command_args ++ ["--keep-config"] else command_args in
    result ← run_plugin_script E command_args 300;
    mret (result, 200).

(** [update_plugin()] *)
Definition update_plugin (E : env) (name : option string)
  : io (CommandResult * nat) :=
  if negb (str_truthy name) then mret (mkResult false (required "name"), 400)
  else
    result ← run_plugin_script E ["update"; default EmptyString name] 300;
    mret (result, 200).

(** [sync_plugins()] *)
Definition sync_plugins (E : env) : io (CommandResult * nat) :=
  result ← run_plugin_script E ["sync"] 300;
  mret (result, 200).

(** [refresh_plugins_index()] *)
Definition refresh_plugins_index (E : env) : io (bool * string) :=
  logger INFO "Request received to refresh plugins index...";;
  download_plugins_index E true.

(** [run_issue_uploader()] *)
Definition run_issue_uploader (E : env) : io (CommandResult * nat) :=
  logger INFO "Request received to run issue uploader script...";;
  let script_path := path_join (SCRIPT_DIR E) "issue_upload.py" in
  present ← path_exists script_path;
  if negb present then
    logger ERROR ("Script not found at " +:+ script_path);;
    mret (mkResult false ("Error: Script not found at " +:+ script_path), 404)
  else
    result ← run_shell_script E
               [PYTHON_EXEC E; script_path; "--scoreboard_dir"; SCOREBOARD_DIR E]
               180;
    mret (result, 200).

Definition SETUP_FILE : string := "/home/pi/.nhlledportal/SETUP".

(** [check_first_run()] *)
Definition check_first_run : io bool := path_exists SETUP_FILE.

(** [index()]: the template it serves. [debug] is [args.debug]. *)
Definition index (debug : bool) (remote_addr : string) : io string :=
  first_run ← check_first_run;
  if first_run && negb debug then
    logger INFO ("SETUP file found. Serving setup.html for " +:+ remote_addr);;
    mret "setup.html"
  else mret "index.html".

(** [setup_page()]: the template it serves. *)
Definition setup_page (debug : bool) : io string :=
  first_run ← check_first_run;
  if negb first_run && negb debug then
    logger INFO "Access to /setup denied, redirecting to /";;
    mret "index.html"
  else
    logger INFO ("Serving setup.html (Debug: "
                   +:+ (if debug then "True" else "False") +:+ ")");;
    mret "setup.html".

End Endpoints.

(** * Properties *)

(** ** Vocabulary of the properties *)

(** All the characters of a text are whitespace. *)
Fixpoint all_space (s : string) : bool :=
  match s with
  | EmptyString => true
  | String c r => PyStr.isspace c && all_space r
  end.

(** The four column labels occur in a text, in this order. *)
Definition labels_in_order (header : string) : Prop :=
  ∃ a b c d e,
    header = a +:+ "NAME" +:+ b +:+ "VERSION" +:+ c +:+ "STATUS" +:+ d
               +:+ "COMMIT" +:+ e.

(** The name a data line binds, if it has the four columns. *)
Definition row_name (line : string) : option string :=
  match PyStr.split line with
  | name :: _ :: _ :: _ :: _ => Some name
  | _ => None
  end.

(** What the second loop makes of the record of a name, given what the
    first loop left for it. *)
Definition merge_entry (installed_plugins : gmap string entry)
    (plugin_statuses : gmap string LiveStatusEntry) (n : string)
    (seed : option PluginRecord) : PluginRecord :=
  let r := default (unknown_record installed_plugins n) seed in
  match plugin_statuses !! n with
  | Some status_data => set_live status_data r
  | None =>
      match installed_plugins !! n with
      | Some _ => set_status "error" r
      | None => r
      end
  end.

(** The world once the first record is logged. *)
Definition started (E : env) (command_list : list string) (w : world)
  : world :=
  add_log (INFO, "Running shell command: " +:+ PyStr.join " " command_list
                   +:+ " in [bold]" +:+ SCOREBOARD_DIR E +:+ "[/bold]") w.

(** The world once the child is started. *)
Definition spawned (E : env) (command_list : list string) (w : world)
    (p : process) : world :=
  mkWorld (fs w) (<[next_pid w := p]> (children w)) (S (next_pid w))
          (clock w) (logs (started E command_list w)).

(** The child started by the runner is no longer among the children once
    the runner returns: the runner waited for it or ended it. *)
Definition child_ended (E : env) (command_list : list string) (timeout : nat)
    (w : world) : Prop :=
  children (exec (run_shell_script E command_list timeout) w) !! next_pid w
  = None.



(** A file cannot be read or parsed: it is absent, or its text is not
    JSON. *)
Definition unreadable (file : option content) : Prop :=
  match file with
  | None => True
  | Some text => ∃ e, json_loads text = inl e
  end.

(** The value of [should_restore] when the first half of
    [check_and_create_installed_plugins_file] is over. *)
Definition should_restore (E : env) (installed : option content) : bool :=
  match installed with
  | None => true
  | Some text =>
      match validate_installed E text with
      | inr (restore, _) => restore
      | inl _ => true
      end
  end.

(** The world the request is served in, once it is logged. *)
Definition received (w : world) : world :=
  add_log (INFO, "Request received for plugin status...") w.





(** No character of a text is whitespace. *)
Fixpoint no_space (s : string) : bool :=
  match s with
  | EmptyString => true
  | String c r => negb (PyStr.isspace c) && no_space r
  end.

(** A token: a text that is not empty and has no whitespace. *)
Definition token (s : string) : Prop :=
  s ≠ EmptyString ∧ no_space s = true.

(** The files once [save_config] has moved the old configuration out of
    the way. *)
Definition moved_away (E : env) (timestamp : string) (w : world)
  : gmap string content :=
  match fs w !! Config.CONFIG_PATH E with
  | Some old =>
      <[Config.backup_path E timestamp := old]>
        (delete (Config.CONFIG_PATH E) (fs w))
  | None => fs w
  end.

(** ** Inputs of the examples *)

Module Examples.

Definition table : string :=
  "NAME     VERSION   STATUS     COMMIT" +:+ nl +:+
  "-----------------------------------" +:+ nl +:+
  "clock    1.0.0     installed  abc123  extra" +:+ nl +:+
  "broken   1.0" +:+ nl +:+
  "weather  2.1       outdated   fff000" +:+ nl.

Definition no_header : string :=
  "plugin   version   state" +:+ nl +:+
  "------------------------" +:+ nl +:+
  "clock    1.0.0     installed  abc123" +:+ nl.

Definition header_only : string :=
  "plugin   version   state" +:+ nl +:+
  "------------------------" +:+ nl.

Definition plugin (name url : string) : entry :=
  [("name", JStr name); ("url", JStr url)].

(** A catalog of two plugins, a manifest of two plugins and the live
    status of two plugins; [clock] is in all three, [zeta] in the catalog
    only, [holiday] in the manifest only, [weather] in the live status
    only. *)
Definition catalog : gmap string entry :=
  <["clock" := plugin "clock" "https://example.org/clock"]>
  (<["zeta" := plugin "zeta" "https://example.org/zeta"]> ∅).
Definition manifest : gmap string entry :=
  <["clock" := plugin "clock" "https://example.org/clock-fork"]>
  (<["holiday" := plugin "holiday" "https://example.org/holiday"]> ∅).
Definition live : gmap string LiveStatusEntry :=
  <["clock" := mkLive "1.0.0" "installed" "abc123"]>
  (<["weather" := mkLive "2.1" "outdated" "fff000"]> ∅).

(** A server whose [sleep 10] exits after ten seconds, whose [false]
    exits at once with code 1 and whose probe of [localhost] prints yes
    after a second; nothing else can be launched, and the index cannot be
    downloaded. *)
Definition sleeper : process := mkProcess (Some 10) 0 EmptyString EmptyString.
Definition failing : process := mkProcess (Some 0) 1 EmptyString EmptyString.
Definition connecting : process :=
  mkProcess (Some 1) 0 ("yes" +:+ nl) EmptyString.
Definition machine : env :=
  mkEnv "/home/pi/nhl-led-scoreboard" "/home/pi/web" "python3"
    (λ command_list,
       match command_list with
       | ["sleep"; "10"] => Launched sleeper
       | ["false"] => Launched failing
       | [_; _; "localhost"; "1883"] => Launched connecting
       | _ => LaunchError "[Errno 2] No such file or directory"
       end)
    (UrlError (OSError "<urlopen error [Errno 101] Network is unreachable>")).

(** A world with no files and no children. *)
Definition idle : world := mkWorld ∅ ∅ 100 0 [].

(** A world whose only file is the probe script. *)
Definition with_probe : world :=
  mkWorld {[ probe_script machine := Garbage "import argparse" ]} ∅ 100 0 [].

(** The files of a server whose installed manifest has zero bytes, next to
    its template and the catalog. *)
Definition zero_byte : world :=
  mkWorld
    (<[PLUGINS_INSTALLED_FILE machine := Blank]>
     (<[PLUGINS_EXAMPLE_FILE machine :=
          Doc (JObj [("plugins",
                      JArr [JObj (plugin "holiday" "https://example.org/holiday")])])]>
     (<[PLUGINS_INDEX_FILE machine :=
          Doc (JObj [("plugins",
                      JArr [JObj (plugin "clock" "https://example.org/clock")])])]>
      ∅)))
    ∅ 100 0 [].


(** A server that has the catalog, but neither an installed manifest nor a
    template. *)
Definition no_manifest : world :=
  mkWorld
    {[ PLUGINS_INDEX_FILE machine :=
         Doc (JObj [("plugins",
                     JArr [JObj (plugin "clock" "https://example.org/clock")])]) ]}
    ∅ 100 0 [].



End Examples.

Module MoreExamples.

(** A table whose second line is a data row, not a separator. *)
Definition no_separator : string :=
  "NAME     VERSION   STATUS     COMMIT" +:+ nl +:+
  "zeta     0.1       installed  000111" +:+ nl +:+
  "clock    1.0.0     installed  abc123  extra" +:+ nl +:+
  "broken   1.0" +:+ nl +:+
  "weather  2.1       outdated   fff000" +:+ nl.

(** A server with a configuration file. *)
Definition old_config : json := JObj [("debug", JStr "off")].
Definition new_config : json := JObj [("debug", JStr "on")].
Definition configured : world :=
  mkWorld {[ Config.CONFIG_PATH Examples.machine := Doc old_config ]}
    ∅ 100 0 [].

(** A server in its first run: the SETUP file is there. *)
Definition first_run : world :=
  mkWorld {[ Endpoints.SETUP_FILE := Blank ]} ∅ 100 0 [].

End MoreExamples.

(** ** Strings *)

Section strings.


Lemma lstrip_all_space s : PyStr.lstrip s = EmptyString ↔ all_space s = true.
Proof.
  induction s as [|c r IH]; simpl; [done|].
  destruct (PyStr.isspace c); simpl; [done|]. split; discriminate.
Qed.

Lemma all_space_rev_app s acc :
  all_space (String.rev_app s acc) = all_space s && all_space acc.
Proof.
  revert acc. induction s as [|c r IH]; intros acc; simpl; [done|].
  rewrite IH. simpl. destruct (PyStr.isspace c), (all_space r); done.
Qed.

Lemma rev_app_empty s acc :
  String.rev_app s acc = EmptyString → s = EmptyString ∧ acc = EmptyString.
Proof.
  revert acc. induction s as [|c r IH]; intros acc; simpl; [done|].
  intros H. apply IH in H as [_ ?]. discriminate.
Qed.

Lemma strip_empty_all_space s :
  PyStr.strip s = EmptyString → all_space s = true.
Proof.
  unfold PyStr.strip, PyStr.rstrip, String.rev. intros H.
  apply rev_app_empty in H as [H _].
  apply lstrip_all_space in H. rewrite all_space_rev_app in H.
  apply andb_true_iff in H as [H _].
  destruct (all_space s) eqn:Hs; [done|].
  assert (all_space (PyStr.lstrip s) = false) as Hl.
  { clear H. induction s as [|c r IH]; simpl in *; [done|].
    destruct (PyStr.isspace c) eqn:Hc; simpl in *; [auto|].
    by rewrite Hc. }
  congruence.
Qed.

Lemma split_go_all_space s :
  all_space s = true → PyStr.split_go EmptyString s = [].
Proof.
  induction s as [|c r IH]; simpl; [done|].
  destruct (PyStr.isspace c); simpl; [auto|done].
Qed.

(** A line with a token is not blank. *)
Lemma split_nonempty_not_blank line :
  PyStr.split line ≠ [] → PyStr.truthy (PyStr.strip line) = true.
Proof.
  intros Hparts. destruct (PyStr.strip line) eqn:Hs; [|done].
  destruct Hparts. by apply split_go_all_space, strip_empty_all_space.
Qed.

(** [s.split('\n')] has at least one piece. *)
Lemma split_on_go_length sep cur s : 1 ≤ length (PyStr.split_on_go sep cur s).
Proof.
  revert cur. induction s as [|c r IH]; intros cur; simpl; [lia|].
  destruct (Ascii.eqb c sep); simpl; [lia|apply IH].
Qed.

End strings.

(** ** The status parser *)

Section parser.

Implicit Types (rows : list string) (line : string).


Lemma lit_Some p s r : lit p s = Some r → s = p +:+ r.
Proof.
  revert s. induction p as [|a p IH]; intros [|b s]; simpl; try done.
  - by intros [= <-].
  - by intros [= <-].
  - destruct (Ascii.eqb_spec a b) as [<-|]; [|done].
    intros Hr%IH. by rewrite Hr.
Qed.

Lemma lstrip_suffix s : ∃ ws, s = ws +:+ PyStr.lstrip s.
Proof.
  induction s as [|c s [ws IH]]; simpl; [by exists EmptyString|].
  destruct (PyStr.isspace c).
  - exists (String c ws). by rewrite IH at 1.
  - by exists EmptyString.
Qed.

Lemma ws_plus_Some s r : ws_plus s = Some r → ∃ ws, s = ws +:+ r.
Proof.
  destruct s as [|c s]; simpl; [done|].
  destruct (PyStr.isspace c); [|done]. intros [= <-].
  destruct (lstrip_suffix s) as [ws Hws].
  exists (String c ws). by rewrite Hws at 1.
Qed.

Lemma header_here_labels s : header_here s = true → labels_in_order s.
Proof.
  unfold header_here, pieces, header_pattern. cbn [foldl].
  destruct (lit "NAME" s) as [r1|] eqn:H1; [|done].
  destruct (ws_plus r1) as [r2|] eqn:H2; [|done].
  destruct (lit "VERSION" r2) as [r3|] eqn:H3; [|done].
  destruct (ws_plus r3) as [r4|] eqn:H4; [|done].
  destruct (lit "STATUS" r4) as [r5|] eqn:H5; [|done].
  destruct (ws_plus r5) as [r6|] eqn:H6; [|done].
  destruct (lit "COMMIT" r6) as [r7|] eqn:H7; [|done].
  intros _.
  apply lit_Some in H1, H3, H5, H7.
  apply ws_plus_Some in H2 as [b H2], H4 as [c H4], H6 as [d H6].
  exists EmptyString, b, c, d, r7. by subst.
Qed.

(** Where the pattern of the header has a match, the four labels occur in
    order. *)
Lemma header_search_labels s : header_search s = true → labels_in_order s.
Proof.
  induction s as [|c s IH]; cbn [header_search].
  - rewrite orb_false_r. apply header_here_labels.
  - intros [Hhere|Hlater]%orb_true_iff; [by apply header_here_labels|].
    destruct (IH Hlater) as (a & b & c' & d & e & ->).
    by exists (String c a), b, c', d, e.
Qed.

Lemma parse_rows_app rows1 rows2 :
  parse_rows (rows1 ++ rows2) = foldl parse_line (parse_rows rows1) rows2.
Proof. unfold parse_rows. apply foldl_app. Qed.

(** A line of fewer than four tokens leaves the dict as it is. *)
Lemma parse_line_short acc line :
  length (PyStr.split line) < 4 → (parse_line acc line).1 = acc.1.
Proof.
  intros Hlen. unfold parse_line. destruct acc as [m lg].
  destruct (negb _); [done|].
  destruct (PyStr.split line) as [|? [|? [|? [|? ?]]]]; simpl in *; try done; lia.
Qed.

(** A line of four tokens or more binds its first token. *)
Lemma parse_line_valid acc line name version status commit extra :
  PyStr.split line = name :: version :: status :: commit :: extra →
  parse_line acc line = (<[name := mkLive version status commit]> acc.1, acc.2).
Proof.
  intros Hparts. unfold parse_line. destruct acc as [m lg].
  rewrite split_nonempty_not_blank by (rewrite Hparts; done).
  simpl. by rewrite Hparts.
Qed.

(** The dict after the loop depends on the dict before it only. *)
Lemma foldl_parse_line_dict rows acc acc' :
  acc.1 = acc'.1 →
  (foldl parse_line acc rows).1 = (foldl parse_line acc' rows).1.
Proof.
  revert acc acc'. induction rows as [|line rows IH]; intros acc acc' Heq; [done|].
  simpl. apply IH. destruct acc as [m lg], acc' as [m' lg']; simpl in *; subst m'.
  unfold parse_line. destruct (negb _); [done|].
  by destruct (PyStr.split line) as [|? [|? [|? [|? ?]]]].
Qed.

(** Lines that bind other names keep the binding of a name. *)
Lemma foldl_parse_line_lookup rows acc name :
  (∀ line, line ∈ rows → row_name line ≠ Some name) →
  (foldl parse_line acc rows).1 !! name = acc.1 !! name.
Proof.
  revert acc. induction rows as [|line rows IH]; intros acc Hrows; [done|].
  simpl. rewrite IH by (intros l Hl; apply Hrows; by right).
  assert (row_name line ≠ Some name) as Hline by (apply Hrows; by left).
  unfold parse_line, row_name in *. destruct acc as [m lg].
  destruct (negb _); [done|].
  destruct (PyStr.split line) as [|n [|? [|? [|? ?]]]]; simpl; try done.
  rewrite lookup_insert_ne; [done|congruence].
Qed.

End parser.

Section parser_claims.

(** C7. Whatever the text, the parser returns a dict. When the header
    line has no match of the pattern of the four column labels, and so
    when it does not have the four labels in order, the dict is empty. When
    it has one, a data line of fewer than four tokens is skipped: the
    dict is the one of the table without that line, so the lines after it
    are parsed as before; and a line of four tokens or more binds its
    first token to its second, third and fourth tokens as version, status
    and commit, whatever follows them on the line, unless a later line
    binds the same name. *)
Theorem parse_tolerates_bad_input output :
  let lines := lines_of output in
  let rows := drop 2 lines in
  (header_search (hd EmptyString lines) = false →
   (parse_plugin_list_output output).1 = ∅)
  ∧ (¬ labels_in_order (hd EmptyString lines) →
     (parse_plugin_list_output output).1 = ∅)
  ∧ (2 < length lines → header_search (hd EmptyString lines) = true →
     (∀ before bad after,
        rows = before ++ bad :: after → length (PyStr.split bad) < 4 →
        (parse_plugin_list_output output).1 = (parse_rows (before ++ after)).1)
     ∧ (∀ before line after name version status commit extra,
          rows = before ++ line :: after →
          PyStr.split line = name :: version :: status :: commit :: extra →
          (∀ later, later ∈ after → row_name later ≠ Some name) →
          (parse_plugin_list_output output).1 !! name
          = Some (mkLive version status commit))).
Proof.
  intros lines rows.
  assert (header_search (hd EmptyString lines) = false →
          (parse_plugin_list_output output).1 = ∅) as Hbad.
  { unfold parse_plugin_list_output. fold lines. intros Hheader.
    destruct (length lines <=? 2); [done|]. by rewrite Hheader. }
  split; [done|]. split.
  { intros Hlabels. apply Hbad. apply not_true_is_false.
    intros Hheader. by apply Hlabels, header_search_labels. }
  unfold parse_plugin_list_output. fold lines.
  - intros Hlen Hheader.
    destruct (length lines <=? 2) eqn:Hle; [apply Nat.leb_le in Hle; lia|].
    rewrite Hheader. simpl. fold rows. split.
    + intros before bad after -> Hshort.
      rewrite !parse_rows_app. simpl.
      apply foldl_parse_line_dict. by apply parse_line_short.
    + intros before line after name version status commit extra -> Hparts Hlater.
      rewrite parse_rows_app. simpl.
      rewrite foldl_parse_line_lookup by done.
      rewrite (parse_line_valid _ _ _ _ _ _ _ Hparts). simpl.
      apply lookup_insert_eq.
Qed.

Lemma parse_tolerates_bad_input_witness :
  (parse_plugin_list_output Examples.no_header).1 = ∅
  ∧ (parse_plugin_list_output Examples.table).1
    = (parse_rows ["clock    1.0.0     installed  abc123  extra";
                   "weather  2.1       outdated   fff000"]).1
  ∧ (parse_plugin_list_output Examples.table).1 !! "clock"
    = Some (mkLive "1.0.0" "installed" "abc123").
Proof.
  split; [|split].
  - apply (proj1 (parse_tolerates_bad_input Examples.no_header)). reflexivity.
  - apply (proj2 (proj2 (parse_tolerates_bad_input Examples.table))
             ltac:(vm_compute; lia) eq_refl)
      with (before := ["clock    1.0.0     installed  abc123  extra"])
           (bad := "broken   1.0");
      [reflexivity | vm_compute; lia].
  - apply (proj2 (proj2 (parse_tolerates_bad_input Examples.table))
             ltac:(vm_compute; lia) eq_refl)
      with (before := []) (line := "clock    1.0.0     installed  abc123  extra")
           (after := ["broken   1.0"; "weather  2.1       outdated   fff000"])
           (extra := ["extra"]);
      [reflexivity | reflexivity |].
    intros later Hlater.
    apply elem_of_cons in Hlater as [->|Hlater]; [vm_compute; congruence|].
    apply list_elem_of_singleton in Hlater as ->. vm_compute; congruence.
Defined.

(** C10. A text whose stripped form has at most two lines gives the
    empty dict and the warning that no data lines were found, whatever its
    first line is: the header is not looked at. The error about the header
    is logged for texts of three lines or more only. *)
Theorem parse_without_data_lines output :
  (length (lines_of output) ≤ 2 →
   parse_plugin_list_output output
   = (∅, [(WARNING,
           "Could not parse 'plugins.py list' output: no data lines found.")]))
  ∧ ((ERROR, "Could not parse 'plugins.py list' header. Got: "
               +:+ hd EmptyString (lines_of output))
       ∈ (parse_plugin_list_output output).2 →
     2 < length (lines_of output)).
Proof.
  unfold parse_plugin_list_output. split.
  - intros Hlen. by apply Nat.leb_le in Hlen as ->.
  - destruct (length (lines_of output) <=? 2) eqn:Hlen.
    + intros [=]%list_elem_of_singleton.
    + intros _. by apply Nat.leb_gt in Hlen.
Qed.

Lemma parse_without_data_lines_witness :
  header_search (hd EmptyString (lines_of Examples.header_only)) = false
  ∧ parse_plugin_list_output Examples.header_only
    = (∅, [(WARNING,
            "Could not parse 'plugins.py list' output: no data lines found.")])
  ∧ 2 < length (lines_of Examples.no_header).
Proof.
  split; [reflexivity|]. split.
  - apply (proj1 (parse_without_data_lines Examples.header_only)).
    vm_compute. lia.
  - apply (proj2 (parse_without_data_lines Examples.no_header)).
    vm_compute. left.
Defined.

End parser_claims.

(** ** The reconciler *)

Section merge.

Variables (available_plugins installed_plugins : gmap string entry).
Variable plugin_statuses : gmap string LiveStatusEntry.

Implicit Types (merged : gmap string PluginRecord) (n k : string).


Lemma seed_available_lookup k :
  seed_available available_plugins !! k
  = available_record k <$> available_plugins !! k.
Proof.
  unfold seed_available.
  apply (map_fold_weak_ind
           (λ r (m : gmap string entry), r !! k = available_record k <$> m !! k)).
  - by rewrite !lookup_empty.
  - intros i x m r Hi IH. destruct (decide (i = k)) as [->|Hne].
    + by rewrite !lookup_insert_eq.
    + by rewrite !lookup_insert_ne.
Qed.

Lemma merge_step_other merged n k :
  n ≠ k →
  merge_step installed_plugins plugin_statuses merged n !! k = merged !! k.
Proof.
  intros Hne. unfold merge_step.
  destruct (merged !! n), (plugin_statuses !! n), (installed_plugins !! n);
    rewrite ?lookup_alter_ne, ?lookup_insert_ne by done; done.
Qed.

Lemma merge_step_same merged n :
  merge_step installed_plugins plugin_statuses merged n !! n
  = Some (merge_entry installed_plugins plugin_statuses n (merged !! n)).
Proof.
  unfold merge_step, merge_entry.
  destruct (merged !! n) as [r|] eqn:Hr,
           (plugin_statuses !! n), (installed_plugins !! n);
    rewrite ?lookup_alter_eq, ?lookup_insert_eq, ?Hr; done.
Qed.

(** The loop treats each name on its own, so the result does not depend
    on the order in which the set is gone through. *)
Lemma merge_loop_lookup names merged k :
  NoDup names →
  merge_loop installed_plugins plugin_statuses names merged !! k
  = if decide (k ∈ names) then Some (merge_entry installed_plugins plugin_statuses k (merged !! k))
    else merged !! k.
Proof.
  unfold merge_loop. revert merged.
  induction names as [|n names IH]; intros merged Hnodup; cbn [foldl].
  { destruct (decide (k ∈ [])) as [Hk%elem_of_nil|]; done. }
  apply NoDup_cons in Hnodup as [Hn Hnodup]. rewrite IH by done.
  destruct (decide (n = k)) as [->|Hne].
  - destruct (decide (k ∈ names)); [done|].
    destruct (decide (k ∈ k :: names)) as [_|Hk]; [|destruct Hk; left].
    apply merge_step_same.
  - rewrite merge_step_other by done.
    destruct (decide (k ∈ names)) as [Hk|Hk],
             (decide (k ∈ n :: names)) as [Hk'|Hk']; try done.
    + destruct Hk'. by right.
    + apply elem_of_cons in Hk' as [->|]; done.
Qed.

(** So the order in which Python goes through the set [all_plugin_names]
    plays no role. *)
Lemma merge_loop_order names names' merged :
  NoDup names → names ≡ₚ names' →
  merge_loop installed_plugins plugin_statuses names merged
  = merge_loop installed_plugins plugin_statuses names' merged.
Proof.
  intros Hnodup Hperm. apply map_eq. intros k.
  assert (NoDup names') as Hnodup' by (by rewrite <-Hperm).
  rewrite !merge_loop_lookup by done.
  destruct (decide (k ∈ names)) as [Hk|Hk], (decide (k ∈ names')) as [Hk'|Hk'];
    try done.
  - destruct Hk'. by rewrite <-Hperm.
  - destruct Hk. by rewrite Hperm.
Qed.

Lemma merge_plugins_lookup k :
  merge_plugins available_plugins installed_plugins plugin_statuses !! k
  = if decide (k ∈ all_plugin_names available_plugins installed_plugins
                                    plugin_statuses)
    then Some (merge_entry installed_plugins plugin_statuses k (available_record k <$> available_plugins !! k))
    else None.
Proof.
  unfold merge_plugins. rewrite merge_loop_lookup by apply NoDup_elements.
  rewrite seed_available_lookup.
  destruct (decide (k ∈ elements _)) as [Hk|Hk];
    rewrite elem_of_elements in Hk.
  - by rewrite decide_True.
  - rewrite decide_False by done.
    destruct (available_plugins !! k) eqn:Ha; [|done].
    destruct Hk. unfold all_plugin_names.
    apply elem_of_union_l, elem_of_union_l, elem_of_dom. eauto.
Qed.

Lemma merge_entry_name k seed :
  (∀ r, seed = Some r → name r = k) → name (merge_entry installed_plugins plugin_statuses k seed) = k.
Proof.
  intros Hseed. unfold merge_entry.
  assert (name (default (unknown_record installed_plugins k) seed) = k) as Hr.
  { destruct seed; simpl; auto. }
  by destruct (plugin_statuses !! k), (installed_plugins !! k).
Qed.

(** The record kept under a name carries that name. *)
Lemma merge_plugins_name k r :
  merge_plugins available_plugins installed_plugins plugin_statuses !! k
  = Some r →
  name r = k.
Proof.
  rewrite merge_plugins_lookup. case_decide; [|done].
  intros [= <-]. apply merge_entry_name.
  intros r. destruct (available_plugins !! k); simpl; [|done]. by intros [= <-].
Qed.

Lemma merge_plugins_dom :
  dom (merge_plugins available_plugins installed_plugins plugin_statuses)
  = dom available_plugins ∪ dom installed_plugins ∪ dom plugin_statuses.
Proof.
  apply set_eq. intros k. rewrite elem_of_dom, merge_plugins_lookup.
  unfold all_plugin_names. case_decide; [|split; [intros []; done|done]].
  split; [done|eauto].
Qed.

(** The names of the list a dict of records is turned into. *)
Lemma final_plugin_list_names merged :
  (∀ k r, merged !! k = Some r → name r = k) →
  name <$> final_plugin_list merged ≡ₚ elements (dom merged).
Proof.
  intros Hname. unfold final_plugin_list.
  rewrite merge_sort_Permutation.
  assert (name <$> map snd (map_to_list merged) = (map_to_list merged).*1) as ->.
  { change (map snd (map_to_list merged)) with ((map_to_list merged).*2).
    rewrite <-list_fmap_compose. apply list_fmap_ext.
    intros i [k r] Hkr%list_elem_of_lookup_2%elem_of_map_to_list. simpl. eauto. }
  apply NoDup_Permutation.
  - apply NoDup_fst_map_to_list.
  - apply NoDup_elements.
  - intros k. rewrite elem_of_elements, elem_of_dom, list_elem_of_fmap.
    split.
    + intros [[k' r] [-> Hkr%elem_of_map_to_list]]. eauto.
    + intros [r Hr]. exists (k, r). by rewrite elem_of_map_to_list.
Qed.

(** The list that is returned is in ascending order of name. *)
Lemma final_plugin_list_sorted merged : Sorted by_name (final_plugin_list merged).
Proof.
  unfold final_plugin_list. apply Sorted_merge_sort.
  intros p q. unfold by_name. apply String.le_total.
Qed.

End merge.

Section merge_claims.

Variables (available_plugins installed_plugins : gmap string entry).
Variable plugin_statuses : gmap string LiveStatusEntry.

Let merged :=
  merge_plugins available_plugins installed_plugins plugin_statuses.

Lemma final_plugin_list_elem (m : gmap string PluginRecord) k r :
  m !! k = Some r → r ∈ final_plugin_list m.
Proof.
  intros Hr. unfold final_plugin_list. rewrite merge_sort_Permutation.
  apply (list_elem_of_fmap_2 snd _ (k, r)). by apply elem_of_map_to_list.
Qed.

(** C1. The keys of the merged dict are the names of the catalog, of the
    installed manifest and of the live status, and no others; the names
    of the list that is returned are these names, each once. *)
Theorem merged_names_are_the_union :
  dom merged
  = dom available_plugins ∪ dom installed_plugins ∪ dom plugin_statuses
  ∧ name <$> final_plugin_list merged
    ≡ₚ elements (dom available_plugins ∪ dom installed_plugins
                   ∪ dom plugin_statuses)
  ∧ NoDup (name <$> final_plugin_list merged).
Proof.
  assert (name <$> final_plugin_list merged
          ≡ₚ elements (dom available_plugins ∪ dom installed_plugins
                         ∪ dom plugin_statuses)) as Hperm.
  { rewrite <-merge_plugins_dom. apply final_plugin_list_names.
    apply merge_plugins_name. }
  split; [apply merge_plugins_dom|]. split; [done|].
  rewrite Hperm. apply NoDup_elements.
Qed.

(** C2. A name of the live status has, in the merged dict and in the
    list that is returned, a record whose version, status and commit are
    those of its live status entry, whatever the catalog and the
    installed manifest hold. *)
Theorem live_status_wins n status_data :
  plugin_statuses !! n = Some status_data →
  ∃ r, merged !! n = Some r
       ∧ r ∈ final_plugin_list merged
       ∧ name r = n
       ∧ version r = live_version status_data
       ∧ status r = live_status status_data
       ∧ commit r = live_commit status_data.
Proof.
  intros Hlive.
  assert (is_Some (merged !! n)) as [r Hr].
  { apply elem_of_dom. unfold merged. rewrite merge_plugins_dom.
    apply elem_of_union_r, elem_of_dom. eauto. }
  exists r. split; [done|]. split; [by eapply final_plugin_list_elem|].
  split; [by eapply merge_plugins_name|].
  unfold merged in Hr. rewrite merge_plugins_lookup in Hr.
  case_decide; [|done]. injection Hr as <-.
  unfold merge_entry. by rewrite Hlive.
Qed.

(** C3. A name that has no live status entry has the status "error" when
    the installed manifest has it, and the status "available" when only
    the catalog has it. *)
Theorem status_without_live_entry n :
  plugin_statuses !! n = None →
  (is_Some (installed_plugins !! n) →
   ∃ r, merged !! n = Some r ∧ r ∈ final_plugin_list merged
        ∧ status r = "error")
  ∧ (is_Some (available_plugins !! n) → installed_plugins !! n = None →
     ∃ r, merged !! n = Some r ∧ r ∈ final_plugin_list merged
          ∧ status r = "available").
Proof.
  intros Hlive. split.
  - intros [d Hd].
    exists (merge_entry installed_plugins plugin_statuses n
              (available_record n <$> available_plugins !! n)).
    assert (merged !! n = Some
              (merge_entry installed_plugins plugin_statuses n
                 (available_record n <$> available_plugins !! n))) as Hr.
    { unfold merged. rewrite merge_plugins_lookup, decide_True; [done|].
      apply elem_of_union_l, elem_of_union_r, elem_of_dom. eauto. }
    split; [done|]. split; [by eapply final_plugin_list_elem|].
    unfold merge_entry. by rewrite Hlive, Hd.
  - intros [d Hd] Hinst.
    exists (merge_entry installed_plugins plugin_statuses n
              (available_record n <$> available_plugins !! n)).
    assert (merged !! n = Some
              (merge_entry installed_plugins plugin_statuses n
                 (available_record n <$> available_plugins !! n))) as Hr.
    { unfold merged. rewrite merge_plugins_lookup, decide_True; [done|].
      apply elem_of_union_l, elem_of_union_l, elem_of_dom. eauto. }
    split; [done|]. split; [by eapply final_plugin_list_elem|].
    unfold merge_entry. by rewrite Hlive, Hinst, Hd.
Qed.

End merge_claims.

Lemma live_status_wins_witness :
  ∃ r, merge_plugins Examples.catalog Examples.manifest Examples.live !! "clock"
       = Some r
       ∧ r ∈ final_plugin_list
               (merge_plugins Examples.catalog Examples.manifest Examples.live)
       ∧ name r = "clock"
       ∧ version r = "1.0.0" ∧ status r = "installed" ∧ commit r = "abc123".
Proof.
  apply (live_status_wins Examples.catalog Examples.manifest Examples.live
           "clock" (mkLive "1.0.0" "installed" "abc123")).
  reflexivity.
Defined.

Lemma status_without_live_entry_witness :
  (∃ r, merge_plugins Examples.catalog Examples.manifest Examples.live
          !! "holiday" = Some r
        ∧ r ∈ final_plugin_list
                (merge_plugins Examples.catalog Examples.manifest Examples.live)
        ∧ status r = "error")
  ∧ (∃ r, merge_plugins Examples.catalog Examples.manifest Examples.live
            !! "zeta" = Some r
          ∧ r ∈ final_plugin_list
                  (merge_plugins Examples.catalog Examples.manifest Examples.live)
          ∧ status r = "available").
Proof.
  split.
  - apply (status_without_live_entry Examples.catalog Examples.manifest
             Examples.live "holiday"); [reflexivity|].
    exists (Examples.plugin "holiday" "https://example.org/holiday"). reflexivity.
  - apply (status_without_live_entry Examples.catalog Examples.manifest
             Examples.live "zeta"); [reflexivity| |reflexivity].
    exists (Examples.plugin "zeta" "https://example.org/zeta"). reflexivity.
Defined.

Example merge_of_the_examples :
  final_plugin_list
    (merge_plugins Examples.catalog Examples.manifest Examples.live)
  = [mkPlugin "clock" (JStr "https://example.org/clock") "1.0.0" "installed" "abc123";
     mkPlugin "holiday" (JStr "https://example.org/holiday") "-" "error" "-";
     mkPlugin "weather" (JStr "-") "2.1" "outdated" "fff000";
     mkPlugin "zeta" (JStr "https://example.org/zeta") "-" "available" "-"].
Proof. vm_compute. reflexivity. Qed.

(** ** The command runner *)

Section runner.

Variables (E : env) (command_list : list string) (timeout : nat) (w : world).



Lemma run_shell_script_launch_error text :
  spawn E command_list = LaunchError text →
  run_shell_script E command_list timeout w
  = (mkResult false ("An unexpected error occurred: " +:+ text),
     add_log (ERROR, "An unexpected error occurred while running shell command: "
                       +:+ text) (started E command_list w)).
Proof.
  intros Hspawn.
  unfold run_shell_script, run_shell_script_body, Popen, mbind, io_bind.
  simpl. by rewrite Hspawn.
Qed.

Lemma run_shell_script_exit p d :
  spawn E command_list = Launched p → exits_after p = Some d → d ≤ timeout →
  run_shell_script E command_list timeout w
  = (mkResult (returncode p =? 0)%Z (stdout p +:+ nl +:+ stderr p),
     add_log (if (returncode p =? 0)%Z
              then (INFO, "Shell command " +:+ PyStr.join " " command_list
                            +:+ " ran successfully.")
              else (WARNING, "Shell command " +:+ PyStr.join " " command_list
                               +:+ " failed."))
             (sleep d (set_children (delete (next_pid w)) (spawned E command_list w p)))).
Proof.
  intros Hspawn Hexit Hd.
  unfold run_shell_script, run_shell_script_body, Popen, communicate,
    mbind, io_bind.
  simpl. rewrite Hspawn. simpl. rewrite lookup_insert_eq, Hexit.
  apply Nat.leb_le in Hd as ->.
  by destruct (returncode p =? 0)%Z.
Qed.

Lemma run_shell_script_timeout p :
  spawn E command_list = Launched p →
  (∀ d, exits_after p = Some d → timeout < d) →
  run_shell_script E command_list timeout w
  = (mkResult false ("Error: Script timed out after " +:+ pretty timeout
                       +:+ " seconds."),
     add_log (ERROR, "Shell command timed out.") (sleep timeout (spawned E command_list w p))).
Proof.
  intros Hspawn Hexit.
  unfold run_shell_script, run_shell_script_body, Popen, communicate,
    mbind, io_bind.
  simpl. rewrite Hspawn. simpl. rewrite lookup_insert_eq.
  destruct (exits_after p) as [d|] eqn:Hd; [|done].
  specialize (Hexit d eq_refl).
  by apply Nat.leb_gt in Hexit as ->.
Qed.

(** The runner leaves the files as they are. *)
Lemma run_shell_script_fs :
  fs (exec (run_shell_script E command_list timeout) w) = fs w.
Proof.
  unfold exec. destruct (spawn E command_list) as [text|p] eqn:Hspawn.
  { by rewrite (run_shell_script_launch_error text). }
  destruct (exits_after p) as [d|] eqn:Hd.
  - destruct (decide (d ≤ timeout)).
    + by rewrite (run_shell_script_exit p d).
    + rewrite (run_shell_script_timeout p); [done|done|].
      intros d' Hd'. rewrite Hd in Hd'. injection Hd' as <-. lia.
  - rewrite (run_shell_script_timeout p); [done|done|]. congruence.
Qed.

End runner.


Section runner_claims.

Variables (E : env) (command_list : list string) (timeout : nat) (w : world).

Let result := eval (run_shell_script E command_list timeout) w.
Let w' := exec (run_shell_script E command_list timeout) w.


(** C4, as the code has it. When the child does not exit within the
    timeout, the runner returns a failure whose output names the timeout,
    once the timeout has passed; the child is left running. *)
Theorem run_shell_script_on_timeout p :
  spawn E command_list = Launched p →
  (∀ d, exits_after p = Some d → timeout < d) →
  result = mkResult false ("Error: Script timed out after "
                             +:+ pretty timeout +:+ " seconds.")
  ∧ clock w' = clock w + timeout
  ∧ children w' !! next_pid w = Some p.
Proof.
  intros Hspawn Hexit. unfold result, w', eval, exec.
  rewrite (run_shell_script_timeout _ _ _ _ p) by done. simpl.
  split; [done|]. split; [done|]. apply lookup_insert_eq.
Qed.

End runner_claims.


Lemma run_shell_script_on_timeout_witness :
  eval (run_shell_script Examples.machine ["sleep"; "10"] 1) Examples.idle
  = mkResult false "Error: Script timed out after 1 seconds."
  ∧ clock (exec (run_shell_script Examples.machine ["sleep"; "10"] 1)
             Examples.idle) = 1
  ∧ children (exec (run_shell_script Examples.machine ["sleep"; "10"] 1)
                Examples.idle) !! 100 = Some Examples.sleeper.
Proof.
  apply (run_shell_script_on_timeout Examples.machine ["sleep"; "10"] 1
           Examples.idle Examples.sleeper); [reflexivity|].
  intros d [= <-]. lia.
Defined.

(** C4, as it is stated, fails: [sleep 10] run with a timeout of one second
    is still among the children when the runner returns. *)
Lemma timed_out_child_not_ended :
  ¬ child_ended Examples.machine ["sleep"; "10"] 1 Examples.idle.
Proof. unfold child_ended. vm_compute. discriminate. Qed.

(** ** Running computations *)

Section io.

Context {A B : Type}.

Lemma run_bind (m : io A) (f : A → io B) w :
  (m ≫= f) w = f (eval m w) (exec m w).
Proof. unfold mbind, io_bind, eval, exec. by destruct (m w). Qed.

Lemma eval_bind (m : io A) (f : A → io B) w :
  eval (m ≫= f) w = eval (f (eval m w)) (exec m w).
Proof. unfold eval at 1. by rewrite run_bind. Qed.

Lemma exec_bind (m : io A) (f : A → io B) w :
  exec (m ≫= f) w = exec (f (eval m w)) (exec m w).
Proof. unfold exec at 1. by rewrite run_bind. Qed.

Lemma exec_ret (x : A) w : exec (mret x) w = w.
Proof. done. Qed.

Lemma eval_ret (x : A) w : eval (mret x) w = x.
Proof. done. Qed.

End io.

Lemma exec_logger l msg w : exec (logger l msg) w = add_log (l, msg) w.
Proof. done. Qed.

Lemma fs_add_log r w : fs (add_log r w) = fs w.
Proof. done. Qed.

Lemma fs_add_logs logged w : fs (foldl (λ w r, add_log r w) w logged) = fs w.
Proof. revert w. induction logged as [|r logged IH]; intros w; simpl; [done|]. by rewrite IH. Qed.

Lemma eval_path_exists path w :
  eval (path_exists path) w = bool_decide (is_Some (fs w !! path)).
Proof. done. Qed.

Lemma exec_path_exists path w : exec (path_exists path) w = w.
Proof. done. Qed.

(** ** Paths *)

Lemma path_join_inj dir name1 name2 :
  path_join dir name1 = path_join dir name2 → name1 = name2.
Proof.
  unfold path_join. destruct (_ || _).
  - apply (inj (String.app dir)).
  - intros H%(inj (String.app dir)). by injection H.
Qed.

Lemma index_is_not_installed E : PLUGINS_INDEX_FILE E ≠ PLUGINS_INSTALLED_FILE E.
Proof. intros H%path_join_inj. discriminate. Qed.

Lemma index_is_not_example E : PLUGINS_INDEX_FILE E ≠ PLUGINS_EXAMPLE_FILE E.
Proof. intros H%path_join_inj. discriminate. Qed.

(** ** The manifest readers *)





Section heal.

Variable E : env.


(** The files when [check_and_create_installed_plugins_file] is over. *)
Lemma check_fs w :
  fs (exec (check_and_create_installed_plugins_file E) w)
  = match fs w !! PLUGINS_EXAMPLE_FILE E with
    | Some template =>
        if should_restore E (fs w !! PLUGINS_INSTALLED_FILE E)
        then <[PLUGINS_INSTALLED_FILE E := template]> (fs w)
        else fs w
    | None => fs w
    end.
Proof.
  unfold check_and_create_installed_plugins_file.
  rewrite exec_bind. change (eval get_world w) with w.
  change (exec get_world w) with w. rewrite exec_bind.
  set (first_half := match fs w !! PLUGINS_INSTALLED_FILE E with
                     | Some _ => _ | None => _ end).
  assert (fs (exec first_half w) = fs w
          ∧ eval first_half w
            = should_restore E (fs w !! PLUGINS_INSTALLED_FILE E))
    as [Hfs Hval].
  { unfold first_half, should_restore.
    destruct (fs w !! PLUGINS_INSTALLED_FILE E) as [text|]; [|done].
    destruct (validate_installed E text) as [e|[restore logged]]; [done|].
    rewrite exec_bind, eval_bind. split; [|done].
    rewrite exec_ret. apply fs_add_logs. }
  rewrite Hval. clear Hval. revert Hfs.
  generalize (exec first_half w). clear first_half. intros w1 <-.
  destruct (should_restore E (fs w1 !! PLUGINS_INSTALLED_FILE E)).
  - rewrite exec_bind, eval_path_exists, exec_path_exists.
    destruct (fs w1 !! PLUGINS_EXAMPLE_FILE E) as [template|] eqn:Ht.
    + rewrite bool_decide_eq_true_2 by eauto.
      rewrite exec_bind, exec_logger, exec_bind.
      unfold shutil_copy, eval, exec. simpl. by rewrite Ht.
    + rewrite bool_decide_eq_false_2 by (by intros []).
      by rewrite exec_logger, fs_add_log.
  - rewrite exec_ret. by destruct (fs w1 !! PLUGINS_EXAMPLE_FILE E).
Qed.

End heal.

(** ** The steps of the reconciliation *)

Section steps.

Variable E : env.

(** The download writes the index file only. *)
Lemma download_fs_other force w path :
  path ≠ PLUGINS_INDEX_FILE E →
  fs (exec (download_plugins_index E force) w) !! path = fs w !! path.
Proof.
  intros Hpath. unfold download_plugins_index.
  rewrite exec_bind, eval_path_exists, exec_path_exists.
  destruct (negb force && _); [done|].
  rewrite exec_bind, exec_logger.
  destruct (urlopen E) as [e|status body]; [done|].
  destruct (status =? 200); [|done].
  rewrite !exec_bind. simpl. by rewrite lookup_insert_ne.
Qed.

Lemma load_available_fs w :
  fs (exec (load_available E) w)
  = fs (exec (download_plugins_index E false) w).
Proof.
  unfold load_available. rewrite exec_bind, exec_bind.
  change (exec get_world ?w) with w. change (eval get_world ?w) with w.
  destruct (read_plugins _ _) as [available raised].
  rewrite exec_bind, exec_ret. by destruct raised.
Qed.


Lemma load_installed_fs w :
  fs (exec (load_installed E) w)
  = fs (exec (check_and_create_installed_plugins_file E) w).
Proof.
  unfold load_installed. rewrite exec_bind, exec_bind.
  change (exec get_world ?w) with w. change (eval get_world ?w) with w.
  destruct (read_plugins _ _) as [installed [e|]]; done.
Qed.


Lemma run_plugin_script_fs args_list timeout w :
  fs (exec (run_plugin_script E args_list timeout) w) = fs w.
Proof.
  unfold run_plugin_script.
  rewrite exec_bind, eval_path_exists, exec_path_exists.
  destruct (negb _); [done|]. apply run_shell_script_fs.
Qed.

Lemma load_live_status_fs w : fs (exec (load_live_status E) w) = fs w.
Proof.
  unfold load_live_status. rewrite !exec_bind, exec_ret, exec_logger.
  rewrite fs_add_log. destruct (negb _).
  - by rewrite exec_bind, exec_ret, exec_logger, fs_add_log,
      run_plugin_script_fs.
  - destruct (parse_plugin_list_output _) as [statuses logged].
    rewrite exec_bind, exec_ret. unfold exec at 1. simpl.
    by rewrite fs_add_logs, run_plugin_script_fs.
Qed.


(** The response of [get_plugin_status], from those of its steps. *)
Lemma get_plugin_status_eval w :
  let available := eval (load_available E) (received w) in
  let w1 := exec (load_available E) (received w) in
  let w2 := exec (load_installed E) w1 in
  eval (get_plugin_status E) w
  = match eval (load_installed E) w1 with
    | inl e => mkResponse 500 false [] (Some (str_exn e))
    | inr installed =>
        mkResponse 200 true
          (final_plugin_list
             (merge_plugins available installed
                (eval (load_live_status E) w2)))
          None
    end.
Proof.
  intros available w1 w2. unfold get_plugin_status.
  rewrite eval_bind, exec_logger, eval_bind, eval_bind.
  fold (received w). fold available w1.
  destruct (eval (load_installed E) w1) as [e|installed].
  - by rewrite eval_bind.
  - fold w2. by rewrite eval_bind, eval_bind.
Qed.

(** The files when [get_plugin_status] is over are those its third step
    leaves. *)
Lemma get_plugin_status_fs w :
  fs (exec (get_plugin_status E) w)
  = fs (exec (load_installed E) (exec (load_available E) (received w))).
Proof.
  unfold get_plugin_status.
  rewrite exec_bind, exec_logger, exec_bind, exec_bind.
  fold (received w).
  destruct (eval (load_installed E) _) as [e|installed].
  - by rewrite exec_bind, exec_ret, exec_logger, fs_add_log.
  - by rewrite exec_bind, exec_bind, exec_ret, exec_logger, fs_add_log,
      load_live_status_fs.
Qed.



End steps.

(** ** The self-heal of the installed manifest *)

Section heal_claims.

Variables (E : env) (w : world).

Let installed := fs w !! PLUGINS_INSTALLED_FILE E.
Let template := fs w !! PLUGINS_EXAMPLE_FILE E.
Let checked := fs (exec (check_and_create_installed_plugins_file E) w).



End heal_claims.


(** ** Failures of the two readers *)


Section reader_claims.

Variables (E : env) (w : world).



Let available := eval (load_available E) (received w).
Let w1 := exec (load_available E) (received w).
Let healed := exec (check_and_create_installed_plugins_file E) w1.
Let w2 := exec (load_installed E) w1.


End reader_claims.



(** ** The connectivity probe *)

Section probe_claims.

Variables (E : env) (data : probe_request) (w : world).

Let result := eval (run_shell_script E (probe_command E data) 30) w.




End probe_claims.


(** The three scenarios of the probe. *)
Example probe_yes :
  verdict (mkResult true ("yes" +:+ nl)) = mkResult true ("yes" +:+ nl).
Proof. reflexivity. Qed.

Example probe_no :
  verdict (mkResult true ("no" +:+ nl)) = mkResult false ("no" +:+ nl).
Proof. reflexivity. Qed.

Example probe_failed :
  verdict (mkResult false EmptyString) = mkResult false EmptyString.
Proof. reflexivity. Qed.

(** The two scenarios of the runner. *)
Example run_false :
  success (eval (run_shell_script Examples.machine ["false"] 5) Examples.idle)
  = false.
Proof. reflexivity. Qed.

Example run_sleep :
  run_shell_script Examples.machine ["sleep"; "10"] 1 Examples.idle
  = (mkResult false "Error: Script timed out after 1 seconds.",
     mkWorld ∅ {[ 100 := Examples.sleeper ]} 101 1
       [(INFO, "Running shell command: sleep 10 in [bold]/home/pi/nhl-led-scoreboard[/bold]");
        (ERROR, "Shell command timed out.")]).
Proof. vm_compute. reflexivity. Qed.

#[local] Set Warnings "-clear-no-such-hyp".

(** * Further properties *)

(** ** The merged records *)

Section merge_more.

Variables (available_plugins installed_plugins : gmap string entry).
Variable plugin_statuses : gmap string LiveStatusEntry.

Let merged :=
  merge_plugins available_plugins installed_plugins plugin_statuses.

Lemma merge_entry_url n seed :
  url (merge_entry installed_plugins plugin_statuses n seed)
  = url (default (unknown_record installed_plugins n) seed).
Proof.
  unfold merge_entry.
  by destruct (plugin_statuses !! n), (installed_plugins !! n).
Qed.

(** X1. The url of a merged record is the one of the catalog entry of its
    name when the catalog has the name, whatever the installed manifest
    says; otherwise it is the one of the installed entry; a missing url,
    or a name that only the live status has, gives "-". *)
Theorem merged_url_precedence n r :
  merged !! n = Some r →
  url r = match available_plugins !! n with
          | Some plugin_data => get_url plugin_data
          | None =>
              match installed_plugins !! n with
              | Some plugin_data => get_url plugin_data
              | None => JStr "-"
              end
          end.
Proof.
  unfold merged. rewrite merge_plugins_lookup. case_decide; [|done].
  intros [= <-]. rewrite merge_entry_url.
  destruct (available_plugins !! n); simpl; [done|].
  by destruct (installed_plugins !! n).
Qed.

(** X2. The status "unknown" that a name outside the catalog starts with
    never reaches the merged dict: a record has it only when the live
    status of its name says so. A record without a live status entry has
    the placeholders "-" as version and commit. *)
Theorem unknown_is_never_kept n r :
  merged !! n = Some r →
  (status r = "unknown" →
   ∃ status_data, plugin_statuses !! n = Some status_data
                  ∧ live_status status_data = "unknown")
  ∧ (plugin_statuses !! n = None → version r = "-" ∧ commit r = "-").
Proof.
  unfold merged. rewrite merge_plugins_lookup.
  case_decide as Hn; [|done]. intros [= <-]. unfold merge_entry.
  destruct (plugin_statuses !! n) as [status_data|] eqn:Hlive.
  { split; [|done]. simpl. eauto. }
  destruct (installed_plugins !! n) as [d|] eqn:Hinst.
  { split; [done|]. by destruct (available_plugins !! n). }
  destruct (available_plugins !! n) as [d|] eqn:Havail; [done|].
  exfalso. revert Hn. unfold all_plugin_names.
  rewrite !elem_of_union, !elem_of_dom, Havail, Hinst, Hlive.
  intros [[[]|[]]|[]]; done.
Qed.

End merge_more.

Lemma merged_url_precedence_witness :
  merge_plugins Examples.catalog Examples.manifest Examples.live !! "clock"
  = Some (mkPlugin "clock" (JStr "https://example.org/clock")
            "1.0.0" "installed" "abc123")
  ∧ url (mkPlugin "clock" (JStr "https://example.org/clock")
           "1.0.0" "installed" "abc123")
    = JStr "https://example.org/clock".
Proof.
  split; [reflexivity|].
  apply (merged_url_precedence Examples.catalog Examples.manifest Examples.live
           "clock"). reflexivity.
Defined.

Lemma unknown_is_never_kept_witness :
  merge_plugins Examples.catalog Examples.manifest Examples.live !! "holiday"
  = Some (mkPlugin "holiday" (JStr "https://example.org/holiday")
            "-" "error" "-")
  ∧ version (mkPlugin "holiday" (JStr "https://example.org/holiday")
               "-" "error" "-") = "-"
  ∧ commit (mkPlugin "holiday" (JStr "https://example.org/holiday")
              "-" "error" "-") = "-".
Proof.
  split; [reflexivity|].
  apply (proj2 (unknown_is_never_kept Examples.catalog Examples.manifest
                  Examples.live "holiday" _ eq_refl)).
  reflexivity.
Defined.

(** X3. The list of plugins of every response of the reconciliation is in
    ascending order of name, and no name occurs twice in it. *)
Theorem reconciliation_list_sorted E w :
  Sorted by_name (resp_plugins (eval (get_plugin_status E) w))
  ∧ NoDup (name <$> resp_plugins (eval (get_plugin_status E) w)).
Proof.
  rewrite get_plugin_status_eval.
  destruct (eval (load_installed E) _) as [e|installed]; simpl.
  { split; constructor. }
  split; [apply final_plugin_list_sorted|].
  rewrite final_plugin_list_names by apply merge_plugins_name.
  apply NoDup_elements.
Qed.

(** ** A status listing that fails *)



Lemma installed_is_not_example E :
  PLUGINS_INSTALLED_FILE E ≠ PLUGINS_EXAMPLE_FILE E.
Proof. intros H%path_join_inj. discriminate. Qed.

Section listing.

Variables (E : env) (w : world).

(** The first three steps of [get_plugin_status] write the index file and
    the installed manifest only. *)
Lemma before_listing_fs_other path :
  path ≠ PLUGINS_INDEX_FILE E → path ≠ PLUGINS_INSTALLED_FILE E →
  fs (exec (load_installed E) (exec (load_available E) (received w))) !! path
  = fs w !! path.
Proof.
  intros Hindex Hinstalled. rewrite load_installed_fs, check_fs.
  assert (fs (exec (load_available E) (received w)) !! path = fs w !! path)
    as Hbefore.
  { by rewrite load_available_fs, download_fs_other. }
  destruct (fs (exec (load_available E) (received w)) !! PLUGINS_EXAMPLE_FILE E);
    [|done].
  destruct (should_restore E _); [|done].
  by rewrite lookup_insert_ne.
Qed.





End listing.


(** ** More on the status parser *)

Section parser_more.

Implicit Types (rows : list string) (line : string).

Lemma length_le_2_drop (lines : list string) :
  length lines ≤ 2 ↔ drop 2 lines = [].
Proof.
  destruct lines as [|? [|? [|? ?]]]; simpl; split; try done; lia.
Qed.

(** X5. The second line of the table is never looked at: two texts with
    the same first line and the same lines from the third on are parsed
    alike, with the same log records. A data row that comes right after the
    header is lost. *)
Theorem second_line_is_skipped output1 output2 :
  hd EmptyString (lines_of output1) = hd EmptyString (lines_of output2) →
  drop 2 (lines_of output1) = drop 2 (lines_of output2) →
  parse_plugin_list_output output1 = parse_plugin_list_output output2.
Proof.
  intros Hheader Hrows. unfold parse_plugin_list_output.
  rewrite Hheader, Hrows.
  destruct (length (lines_of output1) <=? 2) eqn:H1,
           (length (lines_of output2) <=? 2) eqn:H2; try done.
  - apply Nat.leb_le, length_le_2_drop in H1. apply Nat.leb_gt in H2.
    rewrite Hrows in H1. apply length_le_2_drop in H1. lia.
  - apply Nat.leb_le, length_le_2_drop in H2. apply Nat.leb_gt in H1.
    rewrite <-Hrows in H2. apply length_le_2_drop in H2. lia.
Qed.

Lemma no_space_rev_app s acc :
  no_space (String.rev_app s acc) = no_space s && no_space acc.
Proof.
  revert acc. induction s as [|c r IH]; intros acc; simpl; [done|].
  rewrite IH. simpl. destruct (PyStr.isspace c), (no_space r); done.
Qed.

Lemma token_rev cur :
  cur ≠ EmptyString → no_space cur = true → token (String.rev cur).
Proof.
  intros Hcur Hspace. unfold String.rev. split.
  - intros [? _]%rev_app_empty. done.
  - by rewrite no_space_rev_app, Hspace.
Qed.

Lemma split_go_tokens cur s t :
  no_space cur = true → t ∈ PyStr.split_go cur s → token t.
Proof.
  revert cur. induction s as [|c r IH]; intros cur Hcur; simpl.
  - destruct cur; [by intros ?%elem_of_nil|].
    intros ->%list_elem_of_singleton. by apply token_rev.
  - destruct (PyStr.isspace c) eqn:Hc.
    + destruct cur; [by apply IH|].
      intros [->|Ht]%elem_of_cons; [by apply token_rev|by apply (IH EmptyString)].
    + apply IH. simpl. by rewrite Hc.
Qed.

(** The pieces of [s.split()] are tokens. *)
Lemma split_tokens s t : t ∈ PyStr.split s → token t.
Proof. by apply split_go_tokens. Qed.

(** A property of the entries of the dict is kept by the loop when every
    line that binds a name binds it to an entry with the property. *)
Lemma foldl_parse_line_inv (P : string → LiveStatusEntry → Prop) rows acc :
  (∀ line name version status commit extra,
     line ∈ rows →
     PyStr.split line = name :: version :: status :: commit :: extra →
     P name (mkLive version status commit)) →
  map_Forall P acc.1 → map_Forall P (foldl parse_line acc rows).1.
Proof.
  revert acc. induction rows as [|line rows IH]; intros acc Hrows Hacc; [done|].
  simpl. apply IH; [intros; eapply Hrows; [by right|done]|].
  unfold parse_line. destruct acc as [m lg].
  destruct (negb _); [done|].
  destruct (PyStr.split line) as [|n [|v [|st [|c extra]]]] eqn:Hparts;
    try done.
  simpl. apply map_Forall_insert_2; [|done].
  eapply Hrows; [by left|done].
Qed.

Lemma parse_result_inv (P : string → LiveStatusEntry → Prop) output :
  (∀ line name version status commit extra,
     line ∈ drop 2 (lines_of output) →
     PyStr.split line = name :: version :: status :: commit :: extra →
     P name (mkLive version status commit)) →
  map_Forall P (parse_plugin_list_output output).1.
Proof.
  intros Hrows. unfold parse_plugin_list_output.
  destruct (_ <=? 2); [apply map_Forall_empty|].
  destruct (negb _); [apply map_Forall_empty|].
  apply foldl_parse_line_inv; [done|apply map_Forall_empty].
Qed.

(** X6. Every name the parser binds, and every version, status and commit
    it binds it to, is a token: it is not empty and has no whitespace. *)
Theorem parsed_fields_are_tokens output n e :
  (parse_plugin_list_output output).1 !! n = Some e →
  token n ∧ token (live_version e) ∧ token (live_status e)
  ∧ token (live_commit e).
Proof.
  apply (parse_result_inv
           (λ n e, token n ∧ token (live_version e) ∧ token (live_status e)
                   ∧ token (live_commit e))).
  intros line name version status commit extra _ Hparts. simpl.
  repeat split; (apply (split_tokens line); rewrite Hparts);
    repeat first [by left | right].
Qed.

(** X7. Every name the parser binds is the first token of a data line of
    four tokens or more, from the third line on; and the parser binds no
    more names than there are such lines. *)
Theorem parsed_names_come_from_rows output :
  (∀ n, is_Some ((parse_plugin_list_output output).1 !! n) →
        ∃ line, line ∈ drop 2 (lines_of output) ∧ row_name line = Some n)
  ∧ size (parse_plugin_list_output output).1 ≤ length (lines_of output) - 2.
Proof.
  split.
  - intros n [e He]. revert n e He.
    apply (parse_result_inv (λ n _, ∃ line, line ∈ drop 2 (lines_of output)
                                            ∧ row_name line = Some n)).
    intros line name version status commit extra Hline Hparts.
    exists line. split; [done|]. unfold row_name. by rewrite Hparts.
  - unfold parse_plugin_list_output.
    destruct (_ <=? 2); [cbn [fst]; rewrite map_size_empty; lia|].
    destruct (negb _); [cbn [fst]; rewrite map_size_empty; lia|].
    rewrite <-length_drop. unfold parse_rows.
    assert (∀ rows acc,
              size (foldl parse_line acc rows).1 ≤ size acc.1 + length rows)
      as Hsize.
    { induction rows as [|line rows IH]; intros acc; simpl; [lia|].
      etrans; [apply IH|].
      assert (size (parse_line acc line).1 ≤ S (size acc.1)); [|lia].
      unfold parse_line. destruct acc as [m lg]. destruct (negb _); [simpl; lia|].
      destruct (PyStr.split line) as [|n [|v [|st [|c extra]]]];
        simpl; try lia.
      rewrite map_size_insert. destruct (m !! n); unfold id; lia. }
    specialize (Hsize (drop 2 (lines_of output)) (∅, [])).
    simpl in Hsize. by rewrite map_size_empty in Hsize.
Qed.

End parser_more.

Lemma second_line_is_skipped_witness :
  parse_plugin_list_output MoreExamples.no_separator
  = parse_plugin_list_output Examples.table.
Proof.
  apply (second_line_is_skipped MoreExamples.no_separator Examples.table);
    vm_compute; reflexivity.
Defined.

Lemma parsed_fields_are_tokens_witness :
  (parse_plugin_list_output Examples.table).1 !! "clock"
  = Some (mkLive "1.0.0" "installed" "abc123")
  ∧ token "clock" ∧ token "1.0.0" ∧ token "installed" ∧ token "abc123".
Proof.
  split; [vm_compute; reflexivity|].
  apply (parsed_fields_are_tokens Examples.table "clock"
           (mkLive "1.0.0" "installed" "abc123")).
  vm_compute; reflexivity.
Defined.

Lemma parsed_names_come_from_rows_witness :
  ∃ line, line ∈ drop 2 (lines_of Examples.table)
          ∧ row_name line = Some "weather".
Proof.
  apply (proj1 (parsed_names_come_from_rows Examples.table) "weather").
  vm_compute. eauto.
Defined.

(** ** More on the self-heal and on the download *)

Section heal_more.

Variables (E : env) (w : world).

Let checked := exec (check_and_create_installed_plugins_file E) w.

(** X8. The self-heal is idempotent on the files: a second check in a row
    leaves the files the first one left, also when the template itself is
    defective. *)
Theorem self_heal_is_idempotent :
  fs (exec (check_and_create_installed_plugins_file E) checked) = fs checked.
Proof.
  rewrite check_fs. unfold checked. rewrite check_fs.
  destruct (fs w !! PLUGINS_EXAMPLE_FILE E) as [template|] eqn:Ht.
  - destruct (should_restore E (fs w !! PLUGINS_INSTALLED_FILE E)) eqn:Hr.
    + rewrite lookup_insert_ne by apply installed_is_not_example.
      rewrite Ht, lookup_insert_eq.
      destruct (should_restore E (Some template)); [|done].
      apply insert_insert_eq.
    + by rewrite Ht, Hr.
  - by rewrite Ht.
Qed.


End heal_more.


Section download.

Variables (E : env) (force : bool) (w : world).

Let ok := (eval (download_plugins_index E force) w).1.
Let w' := exec (download_plugins_index E force) w.

(** X10. A download that reports a failure leaves the files as they are,
    so a failed refresh keeps the catalog there was; one that reports
    success leaves an index file behind. Without [force] an index file
    that exists is never touched. With [force], or without an index file,
    an answer of status 200 becomes the index file. *)
Theorem download_outcome :
  (ok = false → fs w' = fs w)
  ∧ (ok = true → is_Some (fs w' !! PLUGINS_INDEX_FILE E))
  ∧ (force = false → is_Some (fs w !! PLUGINS_INDEX_FILE E) →
     ok = true ∧ fs w' = fs w)
  ∧ (∀ body, urlopen E = UrlAnswer 200 body →
       force = true ∨ fs w !! PLUGINS_INDEX_FILE E = None →
       ok = true ∧ fs w' = <[PLUGINS_INDEX_FILE E := body]> (fs w)).
Proof.
  unfold ok, w', download_plugins_index.
  rewrite eval_bind, exec_bind, eval_path_exists, exec_path_exists.
  destruct (fs w !! PLUGINS_INDEX_FILE E) as [index|] eqn:Hindex;
    [rewrite bool_decide_eq_true_2 by eauto
    |rewrite bool_decide_eq_false_2 by (by intros [])];
    destruct force; simpl;
    rewrite ?eval_bind, ?exec_bind, ?exec_logger;
    try (destruct (urlopen E) as [e|status body] eqn:Hurl;
         [|destruct (status =? 200) eqn:Hstatus;
           rewrite ?eval_bind, ?exec_bind]);
    simpl; rewrite ?lookup_insert_eq;
    repeat split; intros; destruct_or?; simplify_eq/=; eauto;
    exfalso; by eapply is_Some_None.
Qed.

End download.

Lemma download_outcome_witness :
  fs (exec (download_plugins_index Examples.machine true) Examples.no_manifest)
  = fs Examples.no_manifest
  ∧ fs (exec (download_plugins_index Examples.machine false)
          Examples.no_manifest)
    = fs Examples.no_manifest.
Proof.
  split.
  - apply (proj1 (download_outcome Examples.machine true Examples.no_manifest)).
    reflexivity.
  - apply (proj1 (proj2 (proj2 (download_outcome Examples.machine false
                                   Examples.no_manifest)))); [reflexivity|].
    vm_compute. eauto.
Defined.

(** ** More on the command runner *)


Lemma clock_add_log r w : clock (add_log r w) = clock w.
Proof. done. Qed.

Section runner_more.

Variables (E : env) (command_list : list string) (timeout : nat) (w : world).

Let w' := exec (run_shell_script E command_list timeout) w.

(** The clock when the runner returns, on its three paths. *)
Lemma run_shell_script_clock :
  clock w ≤ clock w' ≤ clock w + timeout.
Proof.
  unfold w', exec. destruct (spawn E command_list) as [text|p] eqn:Hspawn.
  - rewrite (run_shell_script_launch_error _ _ _ _ text) by done.
    simpl. lia.
  - destruct (exits_after p) as [d|] eqn:Hd; [destruct (decide (d ≤ timeout))|].
    + rewrite (run_shell_script_exit _ _ _ _ p d) by done.
      simpl. lia.
    + rewrite (run_shell_script_timeout _ _ _ _ p);
        [simpl; lia|done|].
      intros d' Hd'. rewrite Hd in Hd'. injection Hd' as <-. lia.
    + rewrite (run_shell_script_timeout _ _ _ _ p);
        [simpl; lia|done|congruence].
Qed.

(** X12. The runner returns within the timeout on every path: the clock
    moves forward by the timeout at most. *)
Theorem run_shell_script_time_bound :
  clock w ≤ clock w' ≤ clock w + timeout.
Proof.
  unfold w', exec. destruct (spawn E command_list) as [text|p] eqn:Hspawn.
  { rewrite (run_shell_script_launch_error _ _ _ _ text) by done. simpl. lia. }
  destruct (exits_after p) as [d|] eqn:Hd.
  - destruct (decide (d ≤ timeout)).
    + rewrite (run_shell_script_exit _ _ _ _ p d) by done. simpl. lia.
    + rewrite (run_shell_script_timeout _ _ _ _ p); [simpl; lia|done|].
      intros d' Hd'. rewrite Hd in Hd'. injection Hd' as <-. lia.
  - rewrite (run_shell_script_timeout _ _ _ _ p); [simpl; lia|done|congruence].
Qed.

(** X13. Unless the child outlives the timeout, the runner leaves no
    child behind: when the launch fails or the child exits in time, the
    children are those there were before the call. *)
Theorem run_shell_script_leaves_no_child :
  children w !! next_pid w = None →
  (∀ p, spawn E command_list = Launched p →
        ∃ d, exits_after p = Some d ∧ d ≤ timeout) →
  children w' = children w.
Proof.
  intros Hfresh Hexits. unfold w', exec.
  destruct (spawn E command_list) as [text|p] eqn:Hspawn.
  { by rewrite (run_shell_script_launch_error _ _ _ _ text). }
  destruct (Hexits p eq_refl) as (d & Hd & Hle).
  rewrite (run_shell_script_exit _ _ _ _ p d) by done. simpl.
  by apply delete_insert_id.
Qed.

End runner_more.

Lemma run_shell_script_leaves_no_child_witness :
  children (exec (run_shell_script Examples.machine ["false"] 5) Examples.idle)
  = children Examples.idle.
Proof.
  apply (run_shell_script_leaves_no_child Examples.machine ["false"] 5
           Examples.idle); [reflexivity|].
  intros p [= <-]. exists 0. split; [reflexivity|lia].
Defined.

(** ** Clocks *)


Section clocks.

Variable E : env.

Lemma run_plugin_script_time_bound args_list timeout w :
  clock w ≤ clock (exec (run_plugin_script E args_list timeout) w)
  ≤ clock w + timeout.
Proof.
  unfold run_plugin_script.
  rewrite exec_bind, eval_path_exists, exec_path_exists.
  destruct (negb _).
  - rewrite exec_bind, exec_ret, exec_logger, clock_add_log. lia.
  - apply run_shell_script_clock.
Qed.







End clocks.

(** ** The board names *)

Section boards.

Variables (repr : list json → string) (E : env) (w : world).

Let healed := exec (check_and_create_installed_plugins_file E) w.

Lemma get_plugin_boards_eval :
  eval (Boards.get_plugin_boards repr E) w
  = (Boards.read_boards (fs healed) (PLUGINS_INSTALLED_FILE E)).1.
Proof.
  unfold Boards.get_plugin_boards. rewrite eval_bind, eval_bind.
  change (exec get_world ?w) with w. change (eval get_world ?w) with w.
  fold healed. destruct (Boards.read_boards _ _) as [board_names outcome].
  by rewrite eval_bind, eval_ret.
Qed.




(** X16. An installed manifest that, after the self-heal, is absent or is
    not JSON gives the empty list of boards: [get_plugin_boards] logs the
    failure and no exception reaches its caller. *)
Theorem boards_of_unreadable_manifest :
  unreadable (fs healed !! PLUGINS_INSTALLED_FILE E) →
  eval (Boards.get_plugin_boards repr E) w = [].
Proof.
  rewrite get_plugin_boards_eval. unfold unreadable, Boards.read_boards.
  destruct (fs healed !! PLUGINS_INSTALLED_FILE E) as [text|]; [|done].
  by intros [e ->].
Qed.

End boards.


Lemma boards_of_unreadable_manifest_witness :
  eval (Boards.get_plugin_boards (λ _, EmptyString) Examples.machine)
    Examples.no_manifest = [].
Proof.
  apply (boards_of_unreadable_manifest (λ _, EmptyString) Examples.machine
           Examples.no_manifest).
  vm_compute. exact I.
Defined.

(** ** The configuration file *)



Section config.

Variables (E : env) (config_dir_exists : bool) (timestamp : string).
Variables (data_string : content) (w : world).

Let saved := exec (Config.save_config E config_dir_exists timestamp data_string) w.

Lemma save_config_run :
  fs saved
  = match json_loads data_string with
    | inl _ => <[Config.CONFIG_PATH E := Blank]> (moved_away E timestamp w)
    | inr valid_json =>
        <[Config.CONFIG_PATH E := Doc valid_json]> (moved_away E timestamp w)
    end
  ∧ eval (Config.save_config E config_dir_exists timestamp data_string) w
    = match json_loads data_string with
      | inl e =>
          Config.mkConfigResponse 500 false
            (Some ("An error occurred: " +:+ str_exn e)) None
      | inr _ =>
          Config.mkConfigResponse 200 true
            (Some ("Config saved to " +:+ Config.CONFIG_PATH E
                     +:+ ". Backup of old file created."))
            None
      end.
Proof.
  unfold saved, moved_away, exec, eval, Config.save_config,
    Config.save_config_body, Config.os_rename, path_exists, logger, modify,
    get_world, mbind, io_bind, mret, io_ret.
  destruct config_dir_exists; simpl;
    destruct (fs w !! Config.CONFIG_PATH E) as [old|] eqn:Hold; simpl;
    rewrite ?Hold; simpl;
    destruct (json_loads data_string) as [e|valid_json]; simpl;
    rewrite ?insert_insert_eq; done.
Qed.

Lemma load_config_eval w0 :
  eval (Config.load_config E) w0
  = match fs w0 !! Config.CONFIG_PATH E with
    | None =>
        Config.mkConfigResponse 404 false (Some "config.json not found.") None
    | Some text =>
        match json_loads text with
        | inr data => Config.mkConfigResponse 200 true None (Some data)
        | inl e =>
            Config.mkConfigResponse 500 false
              (Some ("An error occurred: " +:+ str_exn e)) None
        end
    end.
Proof.
  unfold Config.load_config.
  rewrite eval_bind, eval_path_exists, exec_path_exists.
  destruct (fs w0 !! Config.CONFIG_PATH E) as [text|] eqn:Htext.
  - rewrite bool_decide_eq_true_2 by eauto. simpl.
    rewrite eval_bind, exec_logger, eval_bind.
    change (exec get_world ?w) with w. change (eval get_world ?w) with w.
    rewrite fs_add_log, Htext. by destruct (json_loads text).
  - by rewrite bool_decide_eq_false_2 by (by intros []).
Qed.

End config.

Section config_claims.

Variables (E : env) (config_dir_exists : bool) (timestamp : string).
Variable w : world.

(** X17. Saving and loading make a round trip: when the body of the
    request is JSON, [save_config] answers with success, and a
    [load_config] that follows gives back the document that was saved,
    whatever configuration there was before. *)
Theorem save_then_load data_string valid_json :
  json_loads data_string = inr valid_json →
  Config.cfg_success
    (eval (Config.save_config E config_dir_exists timestamp data_string) w)
  = true
  ∧ eval (Config.load_config E)
      (exec (Config.save_config E config_dir_exists timestamp data_string) w)
    = Config.mkConfigResponse 200 true None (Some valid_json).
Proof.
  intros Hjson.
  destruct (save_config_run E config_dir_exists timestamp data_string w)
    as [Hfs Heval].
  rewrite Hjson in Hfs, Heval. split; [by rewrite Heval|].
  by rewrite load_config_eval, Hfs, lookup_insert_eq.
Qed.



End config_claims.

Lemma save_then_load_witness :
  Config.cfg_success
    (eval (Config.save_config Examples.machine true "20250101120000"
             (Doc MoreExamples.new_config)) MoreExamples.configured) = true
  ∧ eval (Config.load_config Examples.machine)
      (exec (Config.save_config Examples.machine true "20250101120000"
               (Doc MoreExamples.new_config)) MoreExamples.configured)
    = Config.mkConfigResponse 200 true None (Some MoreExamples.new_config).
Proof.
  apply (save_then_load Examples.machine true "20250101120000"
           MoreExamples.configured (Doc MoreExamples.new_config)).
  reflexivity.
Defined.



(** ** The other endpoints *)

Section endpoints.

Variables (E : env) (w : world).

Lemma run_plugin_script_frame args_list timeout :
  fs (exec (run_plugin_script E args_list timeout) w) = fs w
  ∧ clock w ≤ clock (exec (run_plugin_script E args_list timeout) w)
    ≤ clock w + timeout.
Proof.
  split; [apply run_plugin_script_fs|apply run_plugin_script_time_bound].
Qed.

(** X20. The four operations on plugins (add, remove, update, sync) do not
    write any file themselves and return within 300 seconds; the issue
    uploader does the same within 180 seconds. A request without the url
    or the name it needs changes nothing at all. *)
Theorem plugin_operations_frame url name keep_config :
  (∀ w', w' ∈ [exec (Endpoints.add_plugin E url) w;
               exec (Endpoints.remove_plugin E name keep_config) w;
               exec (Endpoints.update_plugin E name) w;
               exec (Endpoints.sync_plugins E) w] →
         fs w' = fs w ∧ clock w ≤ clock w' ≤ clock w + 300)
  ∧ (fs (exec (Endpoints.run_issue_uploader E) w) = fs w
     ∧ clock w ≤ clock (exec (Endpoints.run_issue_uploader E) w)
       ≤ clock w + 180)
  ∧ (str_truthy url = false → exec (Endpoints.add_plugin E url) w = w)
  ∧ (str_truthy name = false →
     exec (Endpoints.remove_plugin E name keep_config) w = w
     ∧ exec (Endpoints.update_plugin E name) w = w).
Proof.
  split; [|split; [|split]].
  - intros w' Hw'. repeat apply elem_of_cons in Hw' as [->|Hw'];
      [..|by apply elem_of_nil in Hw'].
    + unfold Endpoints.add_plugin. destruct (negb _); [rewrite exec_ret; split; [done|lia]|].
      rewrite exec_bind, exec_ret. apply run_plugin_script_frame.
    + unfold Endpoints.remove_plugin.
      destruct (negb _); [rewrite exec_ret; split; [done|lia]|].
      rewrite exec_bind, exec_ret. apply run_plugin_script_frame.
    + unfold Endpoints.update_plugin.
      destruct (negb _); [rewrite exec_ret; split; [done|lia]|].
      rewrite exec_bind, exec_ret. apply run_plugin_script_frame.
    + unfold Endpoints.sync_plugins.
      rewrite exec_bind, exec_ret. apply run_plugin_script_frame.
  - unfold Endpoints.run_issue_uploader.
    rewrite exec_bind, exec_logger, exec_bind, eval_path_exists,
      exec_path_exists.
    destruct (negb _).
    + rewrite exec_bind, exec_ret, exec_logger. simpl. split; [done|lia].
    + rewrite exec_bind, exec_ret, run_shell_script_fs.
      split; [done|].
      pose proof (run_shell_script_clock E
                    [PYTHON_EXEC E; path_join (SCRIPT_DIR E) "issue_upload.py";
                     "--scoreboard_dir"; SCOREBOARD_DIR E] 180
                    (add_log (INFO, "Request received to run issue uploader script...") w))
        as Hrun.
      by rewrite clock_add_log in Hrun.
  - intros Hurl. unfold Endpoints.add_plugin. by rewrite Hurl.
  - intros Hname. unfold Endpoints.remove_plugin, Endpoints.update_plugin.
    by rewrite Hname.
Qed.

(** X21. Outside debug mode the two page routes serve the same template:
    the setup page as long as the SETUP file is there, the main page once
    it is gone. In debug mode each route serves its own page. *)
Theorem pages_of_the_two_routes debug remote_addr :
  (debug = false →
   eval (Endpoints.index debug remote_addr) w
   = eval (Endpoints.setup_page debug) w
   ∧ (eval (Endpoints.index debug remote_addr) w = "setup.html"
      ↔ is_Some (fs w !! Endpoints.SETUP_FILE)))
  ∧ (debug = true →
     eval (Endpoints.index debug remote_addr) w = "index.html"
     ∧ eval (Endpoints.setup_page debug) w = "setup.html").
Proof.
  unfold Endpoints.index, Endpoints.setup_page, Endpoints.check_first_run.
  rewrite !eval_bind, !eval_path_exists, !exec_path_exists.
  destruct (fs w !! Endpoints.SETUP_FILE) as [setup|] eqn:Hsetup.
  - rewrite bool_decide_eq_true_2 by eauto.
    split; intros ->; simpl; [|done].
    split; [done|]. split; eauto.
  - rewrite bool_decide_eq_false_2 by (by intros []).
    split; intros ->; simpl; [|done].
    split; [done|]. split; [done|by intros []].
Qed.

Lemma download_fs_present w0 :
  is_Some (fs w0 !! PLUGINS_INDEX_FILE E) →
  fs (exec (download_plugins_index E false) w0) = fs w0.
Proof.
  intros Hindex. unfold download_plugins_index.
  rewrite exec_bind, eval_path_exists, exec_path_exists.
  by rewrite bool_decide_eq_true_2.
Qed.

(** X22. A reconciliation writes no file but the index file and the
    installed manifest; and an index file that exists is not written
    either. *)
Theorem get_plugin_status_frame :
  (∀ path, path ≠ PLUGINS_INDEX_FILE E → path ≠ PLUGINS_INSTALLED_FILE E →
           fs (exec (get_plugin_status E) w) !! path = fs w !! path)
  ∧ (is_Some (fs w !! PLUGINS_INDEX_FILE E) →
     fs (exec (get_plugin_status E) w) !! PLUGINS_INDEX_FILE E
     = fs w !! PLUGINS_INDEX_FILE E).
Proof.
  split.
  - intros path Hindex Hinstalled.
    by rewrite get_plugin_status_fs, before_listing_fs_other.
  - intros Hindex.
    rewrite get_plugin_status_fs, load_installed_fs, check_fs.
    assert (fs (exec (load_available E) (received w)) = fs w) as ->.
    { rewrite load_available_fs. by rewrite download_fs_present. }
    destruct (fs w !! PLUGINS_EXAMPLE_FILE E); [|done].
    destruct (should_restore E _); [|done].
    rewrite lookup_insert_ne; [done|].
    intros H. by apply (index_is_not_installed E).
Qed.

(** X23. The probe endpoint writes no file and returns within the 30
    seconds of its command; a request without a broker or a port is
    answered with the status 400 and changes nothing at all. *)
Theorem mqtt_test_frame data :
  fs (exec (mqtt_test E data) w) = fs w
  ∧ clock w ≤ clock (exec (mqtt_test E data) w) ≤ clock w + 30
  ∧ (str_truthy (broker data) = false ∨ port_truthy (port data) = false →
     (eval (mqtt_test E data) w).2 = 400 ∧ exec (mqtt_test E data) w = w).
Proof.
  unfold mqtt_test.
  destruct (negb (str_truthy (broker data)) || negb (port_truthy (port data)))
    eqn:Hguard.
  { rewrite exec_ret, eval_ret. repeat split; try done; lia. }
  apply orb_false_iff in Hguard as [Hbroker%negb_false_iff Hport%negb_false_iff].
  rewrite exec_bind, eval_path_exists, exec_path_exists.
  destruct (negb _).
  - rewrite exec_bind, exec_ret, exec_logger. simpl.
    split; [done|]. split; [lia|]. intros [?|?]; congruence.
  - rewrite exec_bind, exec_ret, run_shell_script_fs.
    split; [done|]. split; [apply run_shell_script_clock|].
    intros [?|?]; congruence.
Qed.

End endpoints.

Lemma plugin_operations_frame_witness :
  exec (Endpoints.remove_plugin Examples.machine (Some EmptyString) true)
    Examples.idle = Examples.idle
  ∧ exec (Endpoints.update_plugin Examples.machine (Some EmptyString))
      Examples.idle = Examples.idle.
Proof.
  apply (plugin_operations_frame Examples.machine Examples.idle None
           (Some EmptyString) true).
  reflexivity.
Defined.

Lemma pages_of_the_two_routes_witness :
  eval (Endpoints.index false "192.168.1.20") MoreExamples.first_run
  = eval (Endpoints.setup_page false) MoreExamples.first_run
  ∧ eval (Endpoints.index true "192.168.1.20") MoreExamples.first_run
    = "index.html".
Proof.
  split.
  - exact (proj1 (proj1 (pages_of_the_two_routes MoreExamples.first_run false
                           "192.168.1.20") eq_refl)).
  - exact (proj1 (proj2 (pages_of_the_two_routes MoreExamples.first_run true
                           "192.168.1.20") eq_refl)).
Defined.

Lemma get_plugin_status_frame_witness :
  fs (exec (get_plugin_status Examples.machine) Examples.zero_byte)
    !! PLUGINS_EXAMPLE_FILE Examples.machine
  = fs Examples.zero_byte !! PLUGINS_EXAMPLE_FILE Examples.machine
  ∧ fs (exec (get_plugin_status Examples.machine) Examples.zero_byte)
      !! PLUGINS_INDEX_FILE Examples.machine
    = fs Examples.zero_byte !! PLUGINS_INDEX_FILE Examples.machine.
Proof.
  split.
  - apply (proj1 (get_plugin_status_frame Examples.machine Examples.zero_byte)).
    + intros H. by apply (index_is_not_example Examples.machine).
    + intros H. by apply (installed_is_not_example Examples.machine).
  - apply (proj2 (get_plugin_status_frame Examples.machine Examples.zero_byte)).
    vm_compute. eauto.
Defined.

Lemma mqtt_test_frame_witness :
  (eval (mqtt_test Examples.machine
           (mkProbe (Some "localhost") None None None)) Examples.with_probe).2
  = 400
  ∧ exec (mqtt_test Examples.machine
            (mkProbe (Some "localhost") None None None)) Examples.with_probe
    = Examples.with_probe.
Proof.
  apply (mqtt_test_frame Examples.machine Examples.with_probe
           (mkProbe (Some "localhost") None None None)).
  right. reflexivity.
Defined.

(** ** The entries of a manifest *)

Section entries.



End entries.

